(** * Content-fit PDF rendering scripts: a shallow embedding

    The repository holds several near-duplicate Node scripts that load HTML
    into a headless browser, measure the rendered content and export a PDF
    whose page is exactly as large as the content.  This file embeds

    - the JavaScript primitives the scripts rely on (string search,
      [parseInt], [||], [===]),
    - the viewport selection, the markup normalisation and the content
      measurement of [generateExactPdf],
    - the control flow of three scripts (browser calls,
      [try]/[catch]/[finally], [process.exit]) as a state-and-completion
      monad over a trace of observable events: [generateExactPdf] of
      src/unnamed/part_000, the third script of src/unnamed/part_001 (page
      size set through CSS) and [generatePdf] of testpdf.js,

    and proves or refutes the properties stated for them.  The first script
    of part_001 reads the markup from a file and looks up the browser's
    executable, then repeats the steps of part_000 line for line; the second
    one is a variant of testpdf.js.  Both are embedded further down, over a
    second monad that also records what they ask of the operating system,
    and the last part of the file proves further properties of all five
    scripts.

    Conventions.  JavaScript strings are modelled by [string] (code units
    below 256); integer-valued JavaScript numbers by [Z], with [None] of
    [option Z] standing for [NaN], and with the rounding of [JSON.parse]
    written out where an integer as supplied is meant; pixel coordinates
    returned by the layout engine by rationals [Q].  A length in inches is
    the quotient of a pixel count by 96, kept as that rational: JavaScript
    hands [page.pdf] the double nearest to it.  The browser and its layout
    engine are external: their answers are read from an environment record,
    and what the browser makes of the options it is given is not
    modelled. *)

From Stdlib Require Import ZArith QArith Qround List Bool Lia String Ascii.
From Stdlib Require Import DecimalString DecimalN DecimalPos DecimalFacts.
Import ListNotations.

Set Warnings "-register-all".

Local Open Scope string_scope.
Local Open Scope Z_scope.

(* ================================================================= *)
(** * JavaScript strings *)

Module JsString.

(** [s.startsWith(p)] *)
Fixpoint startsWith (s p : string) {struct p} : bool :=
  match p, s with
  | EmptyString, _ => true
  | String _ _, EmptyString => false
  | String a p', String b s' => Ascii.eqb a b && startsWith s' p'
  end.

(** [s.indexOf(p)]; JavaScript's [-1] is [None]. *)
Fixpoint indexOf (s p : string) : option nat :=
  if startsWith s p then Some 0%nat
  else match s with
       | EmptyString => None
       | String _ s' => option_map S (indexOf s' p)
       end.

(** [s.includes(p)] *)
Definition includes (s p : string) : bool :=
  match indexOf s p with Some _ => true | None => false end.

(** [s.substring(n)] *)
Fixpoint substringFrom (s : string) (n : nat) : string :=
  match n, s with
  | O, _ => s
  | S _, EmptyString => EmptyString
  | S n', String _ s' => substringFrom s' n'
  end.

Fixpoint take (n : nat) (s : string) : string :=
  match n, s with
  | O, _ => EmptyString
  | S _, EmptyString => EmptyString
  | S n', String a s' => String a (take n' s')
  end.

(** [s.substring(i, j)]: the code units from [min i j] up to [max i j]. *)
Definition substring (s : string) (i j : nat) : string :=
  take (Nat.max i j - Nat.min i j) (substringFrom s (Nat.min i j)).

(** [s.replace(p, r)] with a string pattern: only the first occurrence is
    replaced.  The replacement strings used by the scripts contain no [$],
    so no replacement pattern is expanded. *)
Definition replace (s p r : string) : string :=
  match indexOf s p with
  | None => s
  | Some i => substring s 0 i ++ r ++ substringFrom s (i + String.length p)
  end.

(** White space as [trim] and [parseInt] understand it (tab, line feed,
    vertical tab, form feed, carriage return, space, no-break space). *)
Definition isWhiteSpace (a : ascii) : bool :=
  let n := nat_of_ascii a in
  ((9 <=? n)%nat && (n <=? 13)%nat) || (n =? 32)%nat || (n =? 160)%nat.

Fixpoint trimStart (s : string) : string :=
  match s with
  | EmptyString => EmptyString
  | String a s' => if isWhiteSpace a then trimStart s' else s
  end.

Fixpoint trimEnd (s : string) : string :=
  match s with
  | EmptyString => EmptyString
  | String a s' =>
      match trimEnd s' with
      | EmptyString => if isWhiteSpace a then EmptyString else String a EmptyString
      | t => String a t
      end
  end.

(** [s.trim()] *)
Definition trim (s : string) : string := trimEnd (trimStart s).

(** Number of positions of [s] at which [p] occurs (for a non-empty [p]). *)
Fixpoint count (s p : string) : nat :=
  match s with
  | EmptyString => 0%nat
  | String _ s' => ((if startsWith s p then 1 else 0) + count s' p)%nat
  end.

End JsString.

(* ================================================================= *)
(** * JavaScript values *)

Module Js.
Import JsString.

(** The values a field of the parsed JSON argument can hold; [VUndefined]
    is an absent field.  [VNum z] is the number whose value is the integer
    [z]: [JSON.parse] turns the integer literal [w] into
    [VNum (jsonNumber w)], defined below.  [VObj] is an object without a
    [toString] or [valueOf] member of its own; the scripts read no member
    of such a value. *)
Inductive value : Type :=
| VUndefined
| VNull
| VBool (b : bool)
| VNum (z : Z)
| VStr (s : string)
| VArr (items : list value)
| VObj.

(** The number a double holds for the integer [z]: [z] itself up to 53
    significant bits, beyond that the nearest integer with 53 significant
    bits, a tie going to the even one (below the overflow to [Infinity]). *)
Definition roundToDouble (z : Z) : Z :=
  let a := Z.abs z in
  let bits := Z.log2 a + 1 in
  if bits <=? 53 then z
  else
    let sh := bits - 53 in
    let q := Z.shiftr a sh in
    let r := a - Z.shiftl q sh in
    let half := Z.shiftl 1 (sh - 1) in
    let q' := if (half <? r) || ((r =? half) && Z.odd q) then q + 1 else q in
    Z.sgn z * Z.shiftl q' sh.

(** The value [JSON.parse] gives the integer literal [w]. *)
Definition jsonNumber (w : Z) : Z := roundToDouble w.

(** ToBoolean *)
Definition truthy (v : value) : bool :=
  match v with
  | VUndefined | VNull => false
  | VBool b => b
  | VNum z => negb (z =? 0)
  | VStr s => negb (String.eqb s "")
  | VArr _ | VObj => true
  end.

(** [a || b] *)
Definition or (a b : value) : value := if truthy a then a else b.

(** [a === b], for operands that are not one and the same array or object
    (the scripts compare with literals only). *)
Definition strictEq (a b : value) : bool :=
  match a, b with
  | VUndefined, VUndefined => true
  | VNull, VNull => true
  | VBool x, VBool y => Bool.eqb x y
  | VNum x, VNum y => x =? y
  | VStr x, VStr y => String.eqb x y
  | _, _ => false
  end.

(** Decimal digits of a non-negative integer. *)
Definition digitsOf (z : Z) : string :=
  NilEmpty.string_of_uint (N.to_uint (Z.to_N z)).

Fixpoint dropTrailingZeros (s : string) : string :=
  match s with
  | EmptyString => EmptyString
  | String a s' =>
      match dropTrailingZeros s' with
      | EmptyString => if Ascii.eqb a "0" then EmptyString else String a EmptyString
      | t => String a t
      end
  end.

(** Number::toString for a non-negative integer: plain decimal digits below
    [10^21], scientific notation from there on ([1e+21], [1.5e+21]).  The
    digits are those of [z]; JavaScript prints the same ones up to [2^53]
    and, for a larger number, the shortest digits that identify it. *)
Definition unsignedToString (z : Z) : string :=
  if z <? 10 ^ 21 then digitsOf z
  else
    let ds := digitsOf z in
    let e := digitsOf (Z.of_nat (String.length ds) - 1) in
    match dropTrailingZeros ds with
    | EmptyString => ds
    | String d EmptyString => String d ("e+" ++ e)
    | String d rest => String d ("." ++ rest ++ "e+" ++ e)
    end.

Definition numberToString (z : Z) : string :=
  if z <? 0 then "-" ++ unsignedToString (- z) else unsignedToString z.

(** ToString; an array is joined with commas, [null] and [undefined]
    items giving the empty text. *)
Fixpoint toString (v : value) : string :=
  match v with
  | VUndefined => "undefined"
  | VNull => "null"
  | VBool true => "true"
  | VBool false => "false"
  | VNum z => numberToString z
  | VStr s => s
  | VArr items =>
      (fix join (l : list value) : string :=
         match l with
         | [] => ""
         | x :: l' =>
             match x with VUndefined | VNull => "" | _ => toString x end
             ++ match l' with [] => "" | _ :: _ => "," ++ join l' end
         end) items
  | VObj => "[object Object]"
  end.

(** [items.includes(s)] on an array: some item is the string [s]. *)
Definition arrayIncludes (items : list value) (s : string) : bool :=
  existsb (fun x => strictEq x (VStr s)) items.

(** [items.indexOf(s)] on an array; [-1] is [None]. *)
Fixpoint arrayIndexOf (items : list value) (s : string) : option nat :=
  match items with
  | [] => None
  | x :: items' =>
      if strictEq x (VStr s) then Some 0%nat
      else option_map S (arrayIndexOf items' s)
  end.

Definition digitValue (a : ascii) : option Z :=
  let n := nat_of_ascii a in
  if ((48 <=? n)%nat && (n <=? 57)%nat)%bool then Some (Z.of_nat n - 48) else None.

(** Value of the longest prefix of decimal digits of [s], read after the
    digits accumulated in [acc]; [None] when no digit has been read. *)
Fixpoint readDigits (acc : option Z) (s : string) : option Z :=
  match s with
  | EmptyString => acc
  | String a s' =>
      match digitValue a with
      | None => acc
      | Some d =>
          readDigits (Some (10 * match acc with Some n => n | None => 0 end + d)) s'
      end
  end.

(** [parseInt(v, 10)]: ToString, skip leading white space, an optional
    sign, then the longest run of decimal digits; [NaN] ([None]) when there
    is no digit. *)
Definition parseInt (v : value) : option Z :=
  match trimStart (toString v) with
  | String "-" s' => option_map Z.opp (readDigits None s')
  | String "+" s' => readDigits None s'
  | s => readDigits None s
  end.

Definition hexValue (a : ascii) : option Z :=
  let n := nat_of_ascii a in
  if ((48 <=? n)%nat && (n <=? 57)%nat)%bool then Some (Z.of_nat n - 48)
  else if ((97 <=? n)%nat && (n <=? 102)%nat)%bool then Some (Z.of_nat n - 87)
  else if ((65 <=? n)%nat && (n <=? 70)%nat)%bool then Some (Z.of_nat n - 55)
  else None.

Fixpoint readHexDigits (acc : option Z) (s : string) : option Z :=
  match s with
  | EmptyString => acc
  | String a s' =>
      match hexValue a with
      | None => acc
      | Some d =>
          readHexDigits (Some (16 * match acc with Some n => n | None => 0 end + d)) s'
      end
  end.

Definition readPrefixed (s : string) : option Z :=
  match s with
  | String "0" (String "x" s') | String "0" (String "X" s') => readHexDigits None s'
  | _ => readDigits None s
  end.

(** [parseInt(v)] without a radix: as above, except that a [0x] prefix
    selects base sixteen. *)
Definition parseIntNoRadix (v : value) : option Z :=
  match trimStart (toString v) with
  | String "-" s' => option_map Z.opp (readPrefixed s')
  | String "+" s' => readPrefixed s'
  | s => readPrefixed s
  end.

End Js.

(* ================================================================= *)
(** * The rendered page *)

Module Dom.
Import JsString Js.

(** What [window.getComputedStyle(el)] exposes to the measurement. *)
Record CSSStyleDeclaration : Type := {
  display : string;
  visibility : string;
  opacity : string;
  backgroundImage : string;
  marginBottom : string }.

(** What [el.getBoundingClientRect()] exposes to the measurement. *)
Record DOMRect : Type := { bottom : Q }.

(** The node tree.  Style and geometry are decided by the layout engine and
    are attached to the element they belong to. *)
Inductive node : Type :=
| Text (data : string)
| Elem (tag : string) (st : CSSStyleDeclaration) (box : DOMRect)
       (loaded : bool) (childNodes : list node).

(** An element as the measurement sees it: the properties it reads. *)
Record element : Type := {
  tagName : string;
  complete : bool;
  textContent : string;
  computedStyle : CSSStyleDeclaration;
  boundingClientRect : DOMRect }.

(** [node.textContent]: the text of all descendants, whatever their style. *)
Fixpoint nodeText (n : node) : string :=
  match n with
  | Text d => d
  | Elem _ _ _ _ kids =>
      (fix texts (l : list node) : string :=
         match l with
         | [] => EmptyString
         | k :: l' => nodeText k ++ texts l'
         end) kids
  end.

Definition textOfNodes (l : list node) : string :=
  fold_right (fun k acc => nodeText k ++ acc) EmptyString l.

(** The elements of a subtree in document order, the root included. *)
Fixpoint elementsOf (n : node) : list element :=
  match n with
  | Text _ => []
  | Elem t st box c kids =>
      {| tagName := t; complete := c; textContent := nodeText n;
         computedStyle := st; boundingClientRect := box |}
      :: (fix descend (l : list node) : list element :=
            match l with
            | [] => []
            | k :: l' => (elementsOf k ++ descend l')%list
            end) kids
  end.

Definition elementsOfNodes (l : list node) : list element :=
  flat_map elementsOf l.

(** A parsed document: the [html] element holds the head and the body. *)
Record document : Type := {
  html_style : CSSStyleDeclaration;
  html_rect : DOMRect;
  head : node;
  body_style : CSSStyleDeclaration;
  body_rect : DOMRect;
  body_childNodes : list node }.

Definition bodyNode (d : document) : node :=
  Elem "BODY" (body_style d) (body_rect d) false (body_childNodes d).

Definition documentElement (d : document) : node :=
  Elem "HTML" (html_style d) (html_rect d) false [head d; bodyNode d].

(** [document.body] *)
Definition body (d : document) : element :=
  {| tagName := "BODY"; complete := false; textContent := nodeText (bodyNode d);
     computedStyle := body_style d; boundingClientRect := body_rect d |}.

(** [document.querySelectorAll('*')] *)
Definition querySelectorAll (d : document) : list element :=
  elementsOf (documentElement d).

(** [body.appendChild(e)] with [e] placed after the content: the elements
    inside the body keep their boxes, and the layout engine gives [html]
    and [body], the ancestors of [e], the boxes [htmlBox] and [bodyBox]
    (those they had when [e] is positioned out of the flow). *)
Definition appendChild (d : document) (e : node) (htmlBox bodyBox : DOMRect)
  : document :=
  {| html_style := html_style d; html_rect := htmlBox; head := head d;
     body_style := body_style d; body_rect := bodyBox;
     body_childNodes := (body_childNodes d ++ [e])%list |}.

End Dom.

(* ================================================================= *)
(** * Content measurement *)

Module Measure.
Import JsString Js Dom.

(** The three tests that make the loop [continue]. *)
Definition hidden (st : CSSStyleDeclaration) : bool :=
  String.eqb (display st) "none"
  || String.eqb (visibility st) "hidden"
  || String.eqb (opacity st) "0".

Definition hasVisibleContent (el : element) : bool :=
  (0 <? String.length (trim (textContent el)))%nat
  || (String.eqb (tagName el) "IMG" && complete el)
  || (negb (String.eqb (backgroundImage (computedStyle el)) "")
      && negb (String.eqb (backgroundImage (computedStyle el)) "none")).

(** [a > b] on coordinates *)
Definition Qgtb (a b : Q) : bool := negb (Qle_bool a b).

(** The two variables the loop updates. *)
Record scanState : Type := {
  maxBottom : Q;
  lastVisibleElement : option element }.

Definition scanStart : scanState :=
  {| maxBottom := 0%Q; lastVisibleElement := None |}.

(** One iteration of [for (const el of allElements)]. *)
Definition scanStep (acc : scanState) (el : element) : scanState :=
  if hidden (computedStyle el) then acc
  else if hasVisibleContent el
          && Qgtb (bottom (boundingClientRect el)) (maxBottom acc)
       then {| maxBottom := bottom (boundingClientRect el);
               lastVisibleElement := Some el |}
       else acc.

Definition scan (allElements : list element) : scanState :=
  fold_left scanStep allElements scanStart.

(** [parseInt(style.marginBottom, 10) || 0] *)
Definition marginBottomPx (el : element) : Z :=
  match parseInt (VStr (marginBottom (computedStyle el))) with
  | Some n => n
  | None => 0
  end.

(** The function evaluated in the page to measure the content height. *)
Definition measureContentHeight (d : document) : Z :=
  let r := scan (querySelectorAll d) in
  match lastVisibleElement r with
  | Some el => Qceiling (maxBottom r + inject_Z (marginBottomPx el))
  | None => Qceiling (bottom (boundingClientRect (body d)))
  end.

End Measure.

(* ================================================================= *)
(** * Markup normalisation *)

Module Markup.
Import JsString Js.

Definition quote : string := String "034" EmptyString.

(** The tag inserted into the head, and the text searched for to decide
    whether one is already there. *)
Definition metaViewportTag : string :=
  Eval cbv in
    "<meta name=" ++ quote ++ "viewport" ++ quote ++ " content=" ++ quote
    ++ "width=device-width, initial-scale=1.0, shrink-to-fit=no" ++ quote ++ ">".

Definition metaViewportProbe : string :=
  Eval cbv in "<meta name=" ++ quote ++ "viewport" ++ quote.

(** "Ensure HTML is complete", first test: wrap a fragment in a document. *)
Definition wrapFragment (html : string) : string :=
  if negb (includes html "<html")
  then "<!DOCTYPE html><html><head></head><body>" ++ html ++ "</body></html>"
  else html.

(** Second test: give a document without a head one. *)
Definition addHead (html : string) : string :=
  if negb (includes html "<head>")
  then replace html "<body>" "<head></head><body>"
  else html.

(** "Add meta viewport for mobile scaling" *)
Definition addMetaViewport (html : string) : string :=
  if negb (includes html metaViewportProbe)
  then match indexOf html "</head>" with
       | Some headEndIndex =>
           substring html 0 headEndIndex ++ metaViewportTag
           ++ substringFrom html headEndIndex
       | None => html
       end
  else html.

(** "Add title if missing" *)
Definition addTitle (pdfTitle html : string) : string :=
  let htmlTitleContent := replace pdfTitle " PDF" "" in
  if negb (includes html "<title>")
  then match indexOf html "<head>" with
       | Some headStartTagIndex =>
           let after := (headStartTagIndex + String.length "<head>")%nat in
           substring html 0 after
           ++ "<title>" ++ htmlTitleContent ++ "</title>"
           ++ substringFrom html after
       | None => html
       end
  else html.

(** The markup handed to [page.setContent]. *)
Definition finalHtmlContent (pdfTitle htmlContent : string) : string :=
  addTitle pdfTitle (addMetaViewport (addHead (wrapFragment htmlContent))).

(** The same statements on whatever [htmlContent] holds; [None] when one of
    them throws a [TypeError].  A string goes through them as above.  An
    array has [includes] and [indexOf], which look for an item equal to the
    text, and neither [replace] nor [substring]: one without the item
    ['<html'] is written into the template literal of the first statement,
    which makes it a string; one with it stays an array, and the first
    statement that would edit it throws.  Any other value has no
    [includes]. *)
Definition normalise (pdfTitle : string) (htmlContent : value) : option value :=
  match htmlContent with
  | VStr s => Some (VStr (finalHtmlContent pdfTitle s))
  | VArr items =>
      if negb (arrayIncludes items "<html") then
        Some (VStr (addTitle pdfTitle (addMetaViewport (addHead
          ("<!DOCTYPE html><html><head></head><body>"
           ++ toString (VArr items) ++ "</body></html>")))))
      else if negb (arrayIncludes items "<head>") then None
      else if negb (arrayIncludes items metaViewportProbe)
              && match arrayIndexOf items "</head>" with
                 | Some _ => true | None => false end
           then None
      else if negb (arrayIncludes items "<title>")
              && match arrayIndexOf items "<head>" with
                 | Some _ => true | None => false end
           then None
      else Some (VArr items)
  | _ => None
  end.

End Markup.

(* ================================================================= *)
(** * Viewport selection *)

Module Viewport.
Import Js.

Definition defaultDesktopWidth : Z := 600.
Definition mobileWidth : Z := 360.
Definition deviceScaleFactor : Z := 2.

Record choice : Type := {
  viewportWidth : option Z;
  pdfTitle : string }.

(** "Determine viewport width": the three-way branch on [viewType] and
    [deviceWidth], both already defaulted with [||]. *)
Definition choose (viewType deviceWidth : value) : choice :=
  if strictEq viewType (VStr "mobile") then
    {| viewportWidth := Some mobileWidth; pdfTitle := "Mobile View PDF" |}
  else if negb (strictEq deviceWidth (VNum defaultDesktopWidth)) then
    {| viewportWidth := parseInt deviceWidth; pdfTitle := "Custom View PDF" |}
  else
    {| viewportWidth := Some defaultDesktopWidth; pdfTitle := "Desktop View PDF" |}.

(** "Convert px to inches for PDF size": the quotient [px / 96], of which
    JavaScript computes the nearest double; [NaN / 96] is [NaN]. *)
Definition pxToInches (px : Z) : Q := (inject_Z px / 96)%Q.

End Viewport.

(* ================================================================= *)
(** * Effects: browser calls, console, process exit *)

Module Effects.
Import Js Dom.

(** The places where a script awaits the browser; each can reject. *)
Inductive site : Type :=
| AtLaunch | AtNewPage | AtInitialViewport | AtSetContent | AtEmulateMediaType
| AtImageWait | AtFontsReady | AtStyleTag | AtMeasure | AtFinalViewport
| AtPdf | AtClose.

Inductive error : Type :=
| SyntaxError            (* thrown by [JSON.parse] *)
| TypeError              (* a method called on a value that lacks it *)
| Rejected (at_ : site). (* the awaited browser call rejected *)

(** [`${x}in`] and [`${x}px`] *)
Inductive pageLength : Type :=
| Inches (q : option Q)
| Pixels (z : option Z).

(** The options passed to [page.pdf]; every script asks for zero margins. *)
Record pdfOptions : Type := {
  path : value;
  printBackground : bool;
  width : option pageLength;
  height : option pageLength;
  pageRanges : option string;
  preferCSSPageSize : bool }.

(** Console texts (their wording differs slightly between the scripts). *)
Inductive message : Type :=
| PdfGenerated (outputPath : value)
| ImagesNotLoaded
| ErrorGeneratingPdf (e : error).

(** Style sheets injected with [page.addStyleTag]. *)
Inductive styleSheet : Type :=
| EmailLayout
| PageSize (widthIn heightIn : option Q) (widthPx : option Z) (heightPx : Z).

(** Observable actions, in the order they happen. *)
Inductive event : Type :=
| Launch
| NewPage
| SetViewport (width : option Z) (height : Z) (scale : Z) (isMobile : bool)
| SetContent (html : value)         (* with [waitUntil: 'networkidle0'] *)
| EmulateMediaType (media : string)
| WaitForImages (timeout : Z)       (* [page.waitForFunction], all images settled *)
| FontsReady                        (* [document.fonts.ready] *)
| Sleep (ms : Z)                    (* [setTimeout] awaited *)
| AddStyleTag (sheet : styleSheet)
| MeasureContent                    (* [page.evaluate] of the measuring function *)
| Pdf (options : pdfOptions)
| ConsoleLog (m : message)
| ConsoleError (m : message)
| Close                             (* [browser.close()] *)
| ProcessExit (code : Z).

(** The fields read from the parsed argument. *)
Record arguments : Type := {
  htmlContent : value;
  outputPath : value;
  deviceWidth : value;
  viewType : value }.

(** Integer layout metrics read by the cheaper measurements. *)
Record layoutMetrics : Type := {
  body_scrollHeight : Z;
  body_offsetHeight : Z;
  html_clientHeight : Z;
  html_scrollHeight : Z;
  html_offsetHeight : Z;
  scrollY : Q }.

(** Everything outside the script: the argument ([None] when [JSON.parse]
    throws; otherwise the four fields read from the value it returns, which
    is taken not to be [null]), which browser calls succeed, and what the
    browser renders. *)
Record environment : Type := {
  argv2 : option arguments;
  succeeds : site -> bool;
  rendered : document;
  metrics : layoutMetrics }.

(** The script's state: the trace so far and whether the variable
    [browser] has been assigned. *)
Record state : Type := {
  trace : list event;
  browser : bool }.

Definition initial : state := {| trace := []; browser := false |}.

(** How a computation ends: normally, by a thrown error (a rejected
    promise), or because [process.exit] ended the process. *)
Inductive completion (A : Type) : Type :=
| Normal (a : A)
| Throw (e : error)
| Exit (code : Z).
Arguments Normal {A} a.
Arguments Throw {A} e.
Arguments Exit {A} code.

Definition M (A : Type) : Type := state -> completion A * state.

Definition ret {A} (a : A) : M A := fun s => (Normal a, s).

Definition bind {A B} (m : M A) (k : A -> M B) : M B :=
  fun s =>
    match m s with
    | (Normal a, s') => k a s'
    | (Throw e, s') => (Throw e, s')
    | (Exit c, s') => (Exit c, s')
    end.

Definition throw {A} (e : error) : M A := fun s => (Throw e, s).

Definition emit (ev : event) : M unit :=
  fun s => (Normal tt, {| trace := (trace s ++ [ev])%list; browser := browser s |}).

(** [process.exit(code)] never returns: the process ends there. *)
Definition processExit {A} (code : Z) : M A :=
  fun s => (Exit code,
            {| trace := (trace s ++ [ProcessExit code])%list; browser := browser s |}).

(** [try { body } catch (e) { handler }], also [promise.catch(handler)] *)
Definition tryCatch {A} (body : M A) (handler : error -> M A) : M A :=
  fun s =>
    match body s with
    | (Throw e, s') => handler e s'
    | r => r
    end.

(** [try { body } finally { cleanup }]: the cleanup runs when the body
    completes normally or throws, not when the process has exited. *)
Definition tryFinally {A} (body : M A) (cleanup : M unit) : M A :=
  fun s =>
    match body s with
    | (Exit c, s') => (Exit c, s')
    | (r, s') =>
        match cleanup s' with
        | (Normal _, s'') => (r, s'')
        | (Throw e, s'') => (Throw e, s'')
        | (Exit c, s'') => (Exit c, s'')
        end
    end.

Definition getBrowser : M bool := fun s => (Normal (browser s), s).

Definition setBrowser : M unit :=
  fun s => (Normal tt, {| trace := trace s; browser := true |}).

Definition run {A} (m : M A) : completion A * state := m initial.

End Effects.

Declare Scope script_scope.
Delimit Scope script_scope with script.
Notation "x <- m ;; k" := (Effects.bind m (fun x => k))
  (at level 61, m at next level, right associativity) : script_scope.
Notation "m ;; k" := (Effects.bind m (fun _ => k))
  (at level 61, right associativity) : script_scope.

(* ================================================================= *)
(** * Operations shared by the scripts *)

Module Ops.
Import Js Dom Effects.
Local Open Scope script_scope.

Section WithEnvironment.
Variable env : environment.

(** [await] of a browser call: the call is made, then it resolves or
    rejects as the environment says. *)
Definition await (at_ : site) (ev : event) : M unit :=
  emit ev ;; if succeeds env at_ then ret tt else throw (Rejected at_).

(** [JSON.parse(process.argv[2])] *)
Definition jsonParseArgv : M arguments :=
  match argv2 env with
  | Some args => ret args
  | None => throw SyntaxError
  end.

(** [browser = await puppeteer.launch(...)] *)
Definition launch : M unit := await AtLaunch Launch ;; setBrowser.

(** [if (browser) { await browser.close(); }] *)
Definition closeIfLaunched : M unit :=
  b <- getBrowser ;; if b then await AtClose Close else ret tt.

End WithEnvironment.

Definition consoleLog (m : message) : M unit := emit (ConsoleLog m).
Definition consoleError (m : message) : M unit := emit (ConsoleError m).

(** [Math.max] on coordinates *)
Definition Qmaxb (a b : Q) : Q := if Qle_bool a b then b else a.

(** [body.lastElementChild] *)
Definition lastElementChild (d : document) : option element :=
  fold_left
    (fun acc k => match elementsOf k with el :: _ => Some el | [] => acc end)
    (body_childNodes d) None.

End Ops.

(* ================================================================= *)
(** * [generateExactPdf], inline markup (src/unnamed/part_000) *)

Module Part000.
Import Js JsString Dom Measure Markup Viewport Effects Ops.
Local Open Scope script_scope.

Section WithEnvironment.
Variable env : environment.

(** "Ensure HTML is complete" up to "Add title if missing". *)
Definition normalised (pdfTitle : string) (htmlContent : value) : M value :=
  match normalise pdfTitle htmlContent with
  | Some final => ret final
  | None => throw TypeError
  end.

(** The body of the [try] block. *)
Definition tryBlock (htmlContent outputPath deviceWidth viewType : value) : M unit :=
  launch env ;;
  await env AtNewPage NewPage ;;
  let c := choose viewType deviceWidth in
  let isMobile := strictEq viewType (VStr "mobile") in
  await env AtInitialViewport
    (SetViewport (viewportWidth c) 800 deviceScaleFactor isMobile) ;;
  finalHtml <- normalised (pdfTitle c) htmlContent ;;
  await env AtSetContent (SetContent finalHtml) ;;
  await env AtEmulateMediaType (EmulateMediaType "screen") ;;
  tryCatch (await env AtImageWait (WaitForImages 10000))
           (fun _ => consoleLog ImagesNotLoaded) ;;
  await env AtFontsReady FontsReady ;;
  emit (Sleep 500) ;;
  await env AtMeasure MeasureContent ;;
  let contentHeight := measureContentHeight (rendered env) in
  await env AtFinalViewport
    (SetViewport (viewportWidth c) contentHeight deviceScaleFactor isMobile) ;;
  let pdfWidthInches := option_map pxToInches (viewportWidth c) in
  let pdfHeightInches := pxToInches contentHeight in
  await env AtPdf
    (Pdf {| path := outputPath;
            printBackground := true;
            width := Some (Inches pdfWidthInches);
            height := Some (Inches (Some pdfHeightInches));
            pageRanges := Some "1";
            preferCSSPageSize := true |}) ;;
  consoleLog (PdfGenerated outputPath) ;;
  processExit 0.

Definition generateExactPdf : M unit :=
  args <- jsonParseArgv env ;;
  let htmlContent := htmlContent args in
  let outputPath := outputPath args in
  let deviceWidth := or (deviceWidth args) (VNum 610) in
  let viewType := or (viewType args) (VStr "desktop") in
  tryFinally
    (tryCatch
       (tryBlock htmlContent outputPath deviceWidth viewType)
       (fun error => consoleError (ErrorGeneratingPdf error) ;; processExit 1))
    (closeIfLaunched env).

End WithEnvironment.
End Part000.

(* ================================================================= *)
(** * [generatePdf], fixed mobile width (src/puppeteer_pdf_generator/testpdf.js) *)

Module TestPdf.
Import Js Dom Effects Ops.
Local Open Scope script_scope.

Section WithEnvironment.
Variable env : environment.

(** "Measure final height (last element bottom)" *)
Definition measurePdfHeight : Z :=
  let d := rendered env in
  let m := metrics env in
  let lastEl := match lastElementChild d with Some el => el | None => body d end in
  let bottom := (Dom.bottom (boundingClientRect lastEl) + scrollY m)%Q in
  Qceiling
    (Qmaxb (inject_Z (body_scrollHeight m))
       (Qmaxb (inject_Z (body_offsetHeight m))
          (Qmaxb (inject_Z (html_clientHeight m))
             (Qmaxb (inject_Z (html_scrollHeight m))
                (Qmaxb (inject_Z (html_offsetHeight m)) bottom))))).

Definition generatePdf : M unit :=
  tryFinally
    (tryCatch
       (args <- jsonParseArgv env ;;
        let htmlContent := htmlContent args in
        let outputPath := outputPath args in
        let pdfWidth := 375 in
        launch env ;;
        await env AtNewPage NewPage ;;
        await env AtInitialViewport (SetViewport (Some pdfWidth) 1080 1 false) ;;
        await env AtSetContent (SetContent htmlContent) ;;
        await env AtFontsReady FontsReady ;;
        await env AtStyleTag (AddStyleTag EmailLayout) ;;
        await env AtMeasure MeasureContent ;;
        let pdfHeight := measurePdfHeight in
        await env AtPdf
          (Pdf {| path := outputPath;
                  printBackground := true;
                  width := Some (Pixels (Some pdfWidth));
                  height := Some (Pixels (Some pdfHeight));
                  pageRanges := None;
                  preferCSSPageSize := false |}) ;;
        consoleLog (PdfGenerated outputPath) ;;
        processExit 0)
       (fun error => consoleError (ErrorGeneratingPdf error) ;; processExit 1))
    (closeIfLaunched env).

End WithEnvironment.
End TestPdf.

(* ================================================================= *)
(** * [generateExactPdf], CSS page size (third script of src/unnamed/part_001) *)

Module Part001.
Import Js Dom Effects Ops Viewport.
Local Open Scope script_scope.

Section WithEnvironment.
Variable env : environment.

(** "Step 3: Measure content height in px" *)
Definition measureContentHeightPx : Z :=
  let m := metrics env in
  Z.max (body_scrollHeight m)
    (Z.max (body_offsetHeight m)
       (Z.max (html_clientHeight m)
          (Z.max (html_scrollHeight m) (html_offsetHeight m)))).

(** This script has no [try]: a rejected call rejects the whole function. *)
Definition generateExactPdf : M unit :=
  args <- jsonParseArgv env ;;
  let htmlContent := htmlContent args in
  let outputPath := outputPath args in
  let deviceWidth := parseIntNoRadix (deviceWidth args) in
  launch env ;;
  await env AtNewPage NewPage ;;
  await env AtInitialViewport (SetViewport deviceWidth 800 1 true) ;;
  await env AtSetContent (SetContent htmlContent) ;;
  await env AtFontsReady FontsReady ;;
  await env AtMeasure MeasureContent ;;
  let contentHeightPx := measureContentHeightPx in
  let pageWidthIn := option_map pxToInches deviceWidth in
  let pageHeightIn := pxToInches contentHeightPx in
  await env AtStyleTag
    (AddStyleTag (PageSize pageWidthIn (Some pageHeightIn) deviceWidth contentHeightPx)) ;;
  await env AtPdf
    (Pdf {| path := outputPath;
            printBackground := true;
            width := None;
            height := None;
            pageRanges := None;
            preferCSSPageSize := true |}) ;;
  await env AtClose Close ;;
  consoleLog (PdfGenerated outputPath).

End WithEnvironment.
End Part001.

(* ================================================================= *)
(** * Reading a trace, and notions used in the statements *)

Module Observe.
Import Js Dom Effects.

(** Place of the first event satisfying [p]. *)
Fixpoint position (p : event -> bool) (tr : list event) : option nat :=
  match tr with
  | [] => None
  | ev :: tr' => if p ev then Some 0%nat else option_map S (position p tr')
  end.

Definition isFontsReady (ev : event) : bool :=
  match ev with FontsReady => true | _ => false end.
Definition isWaitForImages (ev : event) : bool :=
  match ev with WaitForImages _ => true | _ => false end.
Definition isClose (ev : event) : bool :=
  match ev with Close => true | _ => false end.
Definition isPdf (ev : event) : bool :=
  match ev with Pdf _ => true | _ => false end.
Definition isConsoleError (ev : event) : bool :=
  match ev with ConsoleError _ => true | _ => false end.

(** The options of the first [page.pdf] call. *)
Fixpoint pdfCall (tr : list event) : option pdfOptions :=
  match tr with
  | [] => None
  | Pdf o :: _ => Some o
  | _ :: tr' => pdfCall tr'
  end.

(** Value of a decimal numeral read after the digits accumulated in [acc]. *)
Fixpoint uintValue (acc : Z) (d : Decimal.uint) : Z :=
  match d with
  | Decimal.Nil => acc
  | Decimal.D0 d' => uintValue (10 * acc + 0) d'
  | Decimal.D1 d' => uintValue (10 * acc + 1) d'
  | Decimal.D2 d' => uintValue (10 * acc + 2) d'
  | Decimal.D3 d' => uintValue (10 * acc + 3) d'
  | Decimal.D4 d' => uintValue (10 * acc + 4) d'
  | Decimal.D5 d' => uintValue (10 * acc + 5) d'
  | Decimal.D6 d' => uintValue (10 * acc + 6) d'
  | Decimal.D7 d' => uintValue (10 * acc + 7) d'
  | Decimal.D8 d' => uintValue (10 * acc + 8) d'
  | Decimal.D9 d' => uintValue (10 * acc + 9) d'
  end.

(** The script's result and its trace. *)
Definition outcome {A} (r : completion A * state) : completion A := fst r.
Definition events {A} (r : completion A * state) : list event := trace (snd r).

(** [c] starts with no non-empty suffix of [q]. *)
Fixpoint suffixFree (c q : string) : bool :=
  match q with
  | EmptyString => true
  | String _ q' => negb (JsString.startsWith c q) && suffixFree c q'
  end.

(** No occurrence of [p] can begin in a text and end in [c] placed after
    it: [c] starts with no proper non-empty suffix of [p]. *)
Definition overlapFree (p c : string) : bool :=
  match p with
  | EmptyString => true
  | String _ p' => suffixFree c p'
  end.

(** The three titles the viewport selection can produce. *)
Definition pdfTitles : list string :=
  ["Mobile View PDF"; "Custom View PDF"; "Desktop View PDF"].

(** Some code unit of [s] is not white space. *)
Fixpoint hasInk (s : string) : bool :=
  match s with
  | EmptyString => false
  | String a s' => negb (JsString.isWhiteSpace a) || hasInk s'
  end.

(** The element is not skipped by the scan and passes its content test. *)
Definition qualifies (el : element) : bool :=
  negb (Measure.hidden (computedStyle el)) && Measure.hasVisibleContent el.

(** The element view of a node, when it is an element. *)
Definition asElement (n : node) : option element :=
  match elementsOf n with
  | el :: _ => Some el
  | [] => None
  end.

(** [document.documentElement] as the scan sees it. *)
Definition htmlElement (d : document) : element :=
  {| tagName := "HTML"; complete := false;
     textContent := nodeText (documentElement d);
     computedStyle := html_style d; boundingClientRect := html_rect d |}.

(** The elements the scan visits besides those inside the body: [html],
    the head with its content, and [body] itself. *)
Definition outerElements (d : document) : list element :=
  htmlElement d :: (elementsOf (head d) ++ [body d])%list.

(** What the script asks of [page.pdf] in the first call of a run: a
    [width] of [widthPx / 96] inches and a [height] of [heightPx / 96]
    inches, with [preferCSSPageSize] set.  This is the request, not the
    page of the exported file: with that option an [@page] size declared
    in the markup takes precedence over the two lengths, and the browser
    rounds them. *)
Definition requestsPage (r : completion unit * state) (widthPx heightPx : Z) : Prop :=
  exists o w h,
    pdfCall (events r) = Some o
    /\ width o = Some (Inches (Some w))
    /\ height o = Some (Inches (Some h))
    /\ preferCSSPageSize o = true
    /\ (w == inject_Z widthPx / 96)%Q
    /\ (h == inject_Z heightPx / 96)%Q.

(** The bottom margin the measurement adds: that of the element the scan
    ends on, nothing on a page where it finds no visible content. *)
Definition marginOfLowest (d : document) : Z :=
  match Measure.lastVisibleElement (Measure.scan (querySelectorAll d)) with
  | Some el => Measure.marginBottomPx el
  | None => 0
  end.

End Observe.

(* ================================================================= *)
(** * Sample pages and invocations *)

Module Samples.
Import Js Dom Effects.

Definition shown (marginBottom : string) : CSSStyleDeclaration :=
  {| display := "block"; visibility := "visible"; opacity := "1";
     backgroundImage := "none"; marginBottom := marginBottom |}.

Definition notDisplayed : CSSStyleDeclaration :=
  {| display := "none"; visibility := "visible"; opacity := "1";
     backgroundImage := "none"; marginBottom := "0px" |}.

Definition bottomAt (px : Z) : DOMRect := {| bottom := inject_Z px |}.

(** The head the normalisation produces; a browser does not display it. *)
Definition titledHead (title : string) : node :=
  Elem "HEAD" notDisplayed (bottomAt 0) false
    [Elem "TITLE" notDisplayed (bottomAt 0) false [Text title];
     Elem "META" notDisplayed (bottomAt 0) false []].

(** [<p>Hello</p>] in a 610 pixel wide viewport, default style sheet. *)
Definition helloDocument : document :=
  {| html_style := shown "0px"; html_rect := bottomAt 50;
     head := titledHead "Custom View";
     body_style := shown "8px"; body_rect := bottomAt 34;
     body_childNodes := [Elem "P" (shown "16px") (bottomAt 34) false [Text "Hello"]] |}.

(** A page whose only body content is a paragraph that is not displayed;
    the page gives [html] a bottom padding, so its box ends below the body. *)
Definition hiddenParagraphDocument : document :=
  {| html_style := shown "0px"; html_rect := bottomAt 50;
     head := titledHead "Custom View";
     body_style := shown "8px"; body_rect := bottomAt 30;
     body_childNodes := [Elem "P" notDisplayed (bottomAt 0) false [Text "Hello"]] |}.

(** A page without any text: an empty title and an image that is not
    displayed. *)
Definition blankDocument : document :=
  {| html_style := shown "0px"; html_rect := bottomAt 16;
     head := Elem "HEAD" notDisplayed (bottomAt 0) false
               [Elem "TITLE" notDisplayed (bottomAt 0) false [Text ""]];
     body_style := shown "8px"; body_rect := bottomAt 8;
     body_childNodes := [Elem "IMG" notDisplayed (bottomAt 0) true []] |}.

(** [html] has a fixed height of 50 pixels; the body overflows it, ends at
    100 pixels and has a bottom margin of 50 pixels. *)
Definition marginDocument : document :=
  {| html_style := shown "0px"; html_rect := bottomAt 50;
     head := titledHead "Custom View";
     body_style := shown "50px"; body_rect := bottomAt 100;
     body_childNodes := [Elem "P" (shown "0px") (bottomAt 100) false [Text "a"]] |}.

(** An absolutely positioned block with text, ending at 120 pixels. *)
Definition lowBlock : node :=
  Elem "DIV" (shown "0px") (bottomAt 120) false [Text "b"].

(** A second paragraph for the page of [<p>Hello</p>], laid out below the
    first one: it ends at 68 pixels, [body] then ends there too and [html]
    at 84. *)
Definition secondParagraph : node :=
  Elem "P" (shown "16px") (bottomAt 68) false [Text "World"].

Definition someMetrics : layoutMetrics :=
  {| body_scrollHeight := 18; body_offsetHeight := 18; html_clientHeight := 800;
     html_scrollHeight := 800; html_offsetHeight := 50; scrollY := 0 |}.

Definition helloArguments (deviceWidth viewType : value) : arguments :=
  {| htmlContent := VStr "<p>Hello</p>"; outputPath := VStr "out.pdf";
     deviceWidth := deviceWidth; viewType := viewType |}.

Definition allSucceed : site -> bool := fun _ => true.

Definition helloEnvironment (deviceWidth viewType : value) : environment :=
  {| argv2 := Some (helloArguments deviceWidth viewType);
     succeeds := allSucceed;
     rendered := helloDocument;
     metrics := someMetrics |}.

(** The argument is not valid JSON. *)
Definition malformedEnvironment : environment :=
  {| argv2 := None; succeeds := allSucceed;
     rendered := helloDocument; metrics := someMetrics |}.

(** The images do not settle within the ten seconds. *)
Definition slowImagesEnvironment : environment :=
  {| argv2 := Some (helloArguments VUndefined VUndefined);
     succeeds := fun at_ => match at_ with AtImageWait => false | _ => true end;
     rendered := helloDocument;
     metrics := someMetrics |}.

(** [page.pdf] rejects. *)
Definition pdfFailsEnvironment : environment :=
  {| argv2 := Some (helloArguments VUndefined VUndefined);
     succeeds := fun at_ => match at_ with AtPdf => false | _ => true end;
     rendered := helloDocument;
     metrics := someMetrics |}.

End Samples.

(* ================================================================= *)
(** * Effects of the scripts that also talk to the operating system *)

Module Host.
Import Js Dom Effects.

(** What a script asks of the operating system and of Node's [os], [fs]
    and [path] modules. *)
Record host : Type := {
  platform : string;                       (* [os.platform()] *)
  programFilesX86 : value;                 (* [process.env['ProgramFiles(x86)']] *)
  programFiles : value;                    (* [process.env.ProgramFiles] *)
  existsSync : value -> bool;              (* [fs.existsSync] *)
  readFileSync : value -> option string;   (* [fs.readFileSync(_, 'utf8')], [None] when it throws *)
  pathJoin : list string -> string }.      (* [path.join] *)

Inductive hostError : Type :=
| ScriptError (e : error)
| FileSystemError.       (* thrown by [fs.readFileSync] *)

(** Texts written with [console.error] by these scripts. *)
Inductive hostMessage : Type :=
| InputFileMissing       (* 'HTML input file path is missing or does not exist.' *)
| ChromeNotFound         (* 'Google Chrome could not be found in its default location.' *)
| ErrorGeneratingPdfWith (e : hostError).

(** The events of the scripts above, and three more. *)
Inductive hostEvent : Type :=
| Core (ev : event)
| LaunchWith (executablePath : string)   (* [puppeteer.launch({ executablePath, ... })] *)
| AddFullWidthStyle                      (* [page.addStyleTag], children of the body at full width *)
| HostConsoleError (m : hostMessage).

Record hostState : Type := {
  log : list hostEvent;
  launched : bool }.

Definition hostInitial : hostState := {| log := []; launched := false |}.

Inductive hostCompletion (A : Type) : Type :=
| Returned (a : A)
| Thrown (e : hostError)
| Exited (code : Z).
Arguments Returned {A} a.
Arguments Thrown {A} e.
Arguments Exited {A} code.

Definition H (A : Type) : Type := hostState -> hostCompletion A * hostState.

Definition hret {A} (a : A) : H A := fun s => (Returned a, s).

Definition hbind {A B} (m : H A) (k : A -> H B) : H B :=
  fun s =>
    match m s with
    | (Returned a, s') => k a s'
    | (Thrown e, s') => (Thrown e, s')
    | (Exited c, s') => (Exited c, s')
    end.

Definition hthrow {A} (e : hostError) : H A := fun s => (Thrown e, s).

Definition hemit (ev : hostEvent) : H unit :=
  fun s => (Returned tt, {| log := (log s ++ [ev])%list; launched := launched s |}).

(** [process.exit(code)] *)
Definition hexit {A} (code : Z) : H A :=
  fun s => (Exited code,
            {| log := (log s ++ [Core (ProcessExit code)])%list;
               launched := launched s |}).

Definition hTryCatch {A} (body : H A) (handler : hostError -> H A) : H A :=
  fun s =>
    match body s with
    | (Thrown e, s') => handler e s'
    | r => r
    end.

Definition hTryFinally {A} (body : H A) (cleanup : H unit) : H A :=
  fun s =>
    match body s with
    | (Exited c, s') => (Exited c, s')
    | (r, s') =>
        match cleanup s' with
        | (Returned _, s'') => (r, s'')
        | (Thrown e, s'') => (Thrown e, s'')
        | (Exited c, s'') => (Exited c, s'')
        end
    end.

(** A computation of the scripts above run inside one of these: its events
    are appended, its completion and the [browser] variable carried over. *)
Definition lift {A} (m : M A) : H A :=
  fun s =>
    match m {| trace := []; browser := launched s |} with
    | (r, s') =>
        (match r with
         | Normal a => Returned a
         | Throw e => Thrown (ScriptError e)
         | Exit c => Exited c
         end,
         {| log := (log s ++ map Core (trace s'))%list; launched := browser s' |})
    end.

Definition hostRun {A} (m : H A) : hostCompletion A * hostState := m hostInitial.

End Host.

Declare Scope host_scope.
Delimit Scope host_scope with host.
Notation "x <- m ;; k" := (Host.hbind m (fun x => k))
  (at level 61, m at next level, right associativity) : host_scope.
Notation "m ;; k" := (Host.hbind m (fun _ => k))
  (at level 61, right associativity) : host_scope.

(* ================================================================= *)
(** * [getChromeExecutablePath] and [generateExactPdf], markup read from a
      file (first script of src/unnamed/part_001) *)

Module Part001File.
Import Js JsString Dom Measure Markup Viewport Effects Ops Host.

(** The fields read from the parsed argument. *)
Record fileArguments : Type := {
  htmlPath : value;
  outputPath : value;
  deviceWidth : value;
  viewType : value }.

Section WithEnvironment.
Variable env : environment.
Variable os : host.
Variable argv2 : option fileArguments.

(** "Fallback if Chrome is not found in default locations" *)
Definition chromeNotFound {A : Type} : H A :=
  (hemit (HostConsoleError ChromeNotFound) ;; hexit 1)%host.

(** [path.join] throws a [TypeError] unless the folder is a string. *)
Definition getChromeExecutablePath : H string :=
  if String.eqb (platform os) "win32" then
    match or (programFilesX86 os) (programFiles os) with
    | VStr programFiles =>
        let chromePath :=
          pathJoin os [programFiles; "Google"; "Chrome"; "Application"; "chrome.exe"] in
        if existsSync os (VStr chromePath) then hret chromePath else chromeNotFound
    | _ => hthrow (ScriptError TypeError)
    end
  else if String.eqb (platform os) "darwin" then
    let chromePath := "/Applications/Google Chrome.app/Contents/MacOS/Google Chrome" in
    if existsSync os (VStr chromePath) then hret chromePath else chromeNotFound
  else chromeNotFound.

(** [browser = await puppeteer.launch({ executablePath, ... })] *)
Definition launchWith (executablePath : string) : H unit :=
  (hemit (LaunchWith executablePath) ;;
   if succeeds env AtLaunch then lift setBrowser
   else hthrow (ScriptError (Rejected AtLaunch)))%host.

(** "the rest of your code is exactly the same": the statements of the
    [try] block after the launch, on markup that is a string. *)
Definition renderSteps (htmlContent : string)
    (outputPath deviceWidth viewType : value) : M unit :=
  (await env AtNewPage NewPage ;;
   let c := choose viewType deviceWidth in
   let isMobile := strictEq viewType (VStr "mobile") in
   await env AtInitialViewport
     (SetViewport (viewportWidth c) 800 deviceScaleFactor isMobile) ;;
   let finalHtml := finalHtmlContent (pdfTitle c) htmlContent in
   await env AtSetContent (SetContent (VStr finalHtml)) ;;
   await env AtEmulateMediaType (EmulateMediaType "screen") ;;
   tryCatch (await env AtImageWait (WaitForImages 10000))
            (fun _ => consoleLog ImagesNotLoaded) ;;
   await env AtFontsReady FontsReady ;;
   emit (Sleep 500) ;;
   await env AtMeasure MeasureContent ;;
   let contentHeight := measureContentHeight (rendered env) in
   await env AtFinalViewport
     (SetViewport (viewportWidth c) contentHeight deviceScaleFactor isMobile) ;;
   let pdfWidthInches := option_map pxToInches (viewportWidth c) in
   let pdfHeightInches := pxToInches contentHeight in
   await env AtPdf
     (Pdf {| path := outputPath;
             printBackground := true;
             width := Some (Inches pdfWidthInches);
             height := Some (Inches (Some pdfHeightInches));
             pageRanges := Some "1";
             preferCSSPageSize := true |}) ;;
   consoleLog (PdfGenerated outputPath) ;;
   processExit 0)%script.

Definition generateExactPdf : H unit :=
  (args <- match argv2 with
           | Some args => hret args
           | None => hthrow (ScriptError SyntaxError)
           end ;;
   let htmlPath := htmlPath args in
   let outputPath := outputPath args in
   let deviceWidth := or (deviceWidth args) (VNum 610) in
   let viewType := or (viewType args) (VStr "desktop") in
   (if negb (truthy htmlPath) || negb (existsSync os htmlPath)
    then hemit (HostConsoleError InputFileMissing) ;; hexit 1
    else hret tt) ;;
   htmlContent <- match readFileSync os htmlPath with
                  | Some text => hret text
                  | None => hthrow FileSystemError
                  end ;;
   hTryFinally
     (hTryCatch
        (executablePath <- getChromeExecutablePath ;;
         launchWith executablePath ;;
         lift (renderSteps htmlContent outputPath deviceWidth viewType))
        (fun error =>
           hemit (HostConsoleError (ErrorGeneratingPdfWith error)) ;; hexit 1))
     (lift (closeIfLaunched env)))%host.

End WithEnvironment.
End Part001File.

(* ================================================================= *)
(** * [generatePdf], supplied width (second script of src/unnamed/part_001) *)

Module Part001Pdf.
Import Js Dom Effects Ops Host.

Section WithEnvironment.
Variable env : environment.

(** The height evaluated in the page: the largest of four metrics. *)
Definition measureBodyHeight : Z :=
  let m := metrics env in
  Z.max (body_scrollHeight m)
    (Z.max (body_offsetHeight m)
       (Z.max (html_scrollHeight m) (html_offsetHeight m))).

(** [await] of a browser call that the scripts above do not make. *)
Definition hawait (at_ : site) (ev : hostEvent) : H unit :=
  (hemit ev ;;
   if succeeds env at_ then hret tt else hthrow (ScriptError (Rejected at_)))%host.

Definition generatePdf : H unit :=
  (hTryFinally
     (hTryCatch
        (args <- lift (jsonParseArgv env) ;;
         let htmlContent := htmlContent args in
         let outputPath := outputPath args in
         let deviceWidth := parseIntNoRadix (deviceWidth args) in
         lift (launch env) ;;
         lift (await env AtNewPage NewPage) ;;
         lift (await env AtInitialViewport (SetViewport deviceWidth 1080 1 false)) ;;
         lift (await env AtSetContent (SetContent htmlContent)) ;;
         lift (await env AtFontsReady FontsReady) ;;
         hawait AtStyleTag AddFullWidthStyle ;;
         lift (await env AtMeasure MeasureContent) ;;
         let bodyHeight := measureBodyHeight in
         lift (await env AtPdf
                 (Pdf {| path := outputPath;
                         printBackground := true;
                         width := Some (Pixels deviceWidth);
                         height := Some (Pixels (Some bodyHeight));
                         pageRanges := None;
                         preferCSSPageSize := false |})) ;;
         lift (consoleLog (PdfGenerated outputPath)) ;;
         hexit 0)
        (fun error =>
           hemit (HostConsoleError (ErrorGeneratingPdfWith error)) ;; hexit 1))
     (lift (closeIfLaunched env)))%host.

End WithEnvironment.
End Part001Pdf.

(* ================================================================= *)
(** * Notions used in the further properties *)

Module Notions.
Import Js Dom Effects Host.

(** Every call of the list succeeds. *)
Definition everyCall (env : environment) (sites : list site) : bool :=
  forallb (succeeds env) sites.


(** The browser calls of each script, in the order it makes them; the
    image wait of part_000 is left out, its rejection being caught. *)
Definition part000Calls : list site :=
  [AtLaunch; AtNewPage; AtInitialViewport; AtSetContent; AtEmulateMediaType;
   AtFontsReady; AtMeasure; AtFinalViewport; AtPdf].

Definition testPdfCalls : list site :=
  [AtLaunch; AtNewPage; AtInitialViewport; AtSetContent; AtFontsReady;
   AtStyleTag; AtMeasure; AtPdf].


(** A text that does not begin with a digit ends the number before it. *)
Definition endsNumber (rest : string) : bool :=
  match rest with
  | EmptyString => true
  | String a _ => match digitValue a with Some _ => false | None => true end
  end.

Definition isString (v : value) : bool :=
  match v with VStr _ => true | _ => false end.

(** The value has a method [includes]: it is a string or an array. *)
Definition hasIncludes (v : value) : bool :=
  match v with VStr _ | VArr _ => true | _ => false end.

(** The markup for which the statements normalising it throw nothing: a
    string; an array without the item ['<html']; an array with the items
    ['<html'], ['<head>'] and ['<title>'] that holds the viewport probe or
    no item ['</head>']. *)
Definition passesNormalisation (v : value) : bool :=
  match v with
  | VStr _ => true
  | VArr items =>
      negb (arrayIncludes items "<html")
      || (arrayIncludes items "<head>"
          && (arrayIncludes items Markup.metaViewportProbe
              || negb (arrayIncludes items "</head>"))
          && arrayIncludes items "<title>")
  | _ => false
  end.

Definition isSome {A : Type} (o : option A) : bool :=
  match o with Some _ => true | None => false end.

(** The same browser with another argument. *)
Definition withArguments (env : environment) (args : arguments) : environment :=
  {| argv2 := Some args; succeeds := succeeds env;
     rendered := rendered env; metrics := metrics env |}.

(** The argument of the inline script that carries the text of the file. *)
Definition inlineArguments (text : string) (args : Part001File.fileArguments)
  : arguments :=
  {| htmlContent := VStr text;
     outputPath := Part001File.outputPath args;
     deviceWidth := Part001File.deviceWidth args;
     viewType := Part001File.viewType args |}.

(** An event of the inline script as the file script shows it: the launch
    names the executable, and the error is written with its own text. *)
Definition asHostEvent (executablePath : string) (ev : event) : hostEvent :=
  match ev with
  | Launch => LaunchWith executablePath
  | ConsoleError (ErrorGeneratingPdf e) =>
      HostConsoleError (ErrorGeneratingPdfWith (ScriptError e))
  | _ => Core ev
  end.

Definition asHostCompletion {A : Type} (r : completion A) : hostCompletion A :=
  match r with
  | Normal a => Returned a
  | Throw e => Thrown (ScriptError e)
  | Exit c => Exited c
  end.

(** The options of the first [page.pdf] call in a log. *)
Fixpoint hostPdfCall (l : list hostEvent) : option pdfOptions :=
  match l with
  | [] => None
  | Core (Pdf o) :: _ => Some o
  | _ :: l' => hostPdfCall l'
  end.

(** A Mac with Chrome installed and a file [page.html]. *)
Definition macHost : host :=
  {| platform := "darwin";
     programFilesX86 := VUndefined;
     programFiles := VUndefined;
     existsSync := fun _ => true;
     readFileSync := fun _ => Some "<p>Hello</p>";
     pathJoin := fun parts => String.concat "/" parts |}.

(** A Linux machine. *)
Definition linuxHost : host :=
  {| platform := "linux";
     programFilesX86 := VUndefined;
     programFiles := VUndefined;
     existsSync := fun _ => true;
     readFileSync := fun _ => Some "<p>Hello</p>";
     pathJoin := fun parts => String.concat "/" parts |}.

(** A machine without the input file. *)
Definition emptyDiskHost : host :=
  {| platform := "darwin";
     programFilesX86 := VUndefined;
     programFiles := VUndefined;
     existsSync := fun _ => false;
     readFileSync := fun _ => None;
     pathJoin := fun parts => String.concat "/" parts |}.

Definition pageArguments : Part001File.fileArguments :=
  {| Part001File.htmlPath := VStr "page.html";
     Part001File.outputPath := VStr "out.pdf";
     Part001File.deviceWidth := VUndefined;
     Part001File.viewType := VUndefined |}.

(** An invocation whose [htmlContent] is an array of two paragraphs. *)
Definition arrayMarkupEnvironment : environment :=
  {| argv2 := Some {| htmlContent := VArr [VStr "<p>Hello</p>"; VStr "<p>World</p>"];
                      outputPath := VStr "out.pdf";
                      deviceWidth := VUndefined; viewType := VUndefined |};
     succeeds := Samples.allSucceed;
     rendered := Samples.helloDocument;
     metrics := Samples.someMetrics |}.

(** An invocation without [htmlContent]. *)
Definition noMarkupEnvironment : environment :=
  {| argv2 := Some {| htmlContent := VUndefined; outputPath := VStr "out.pdf";
                      deviceWidth := VUndefined; viewType := VUndefined |};
     succeeds := Samples.allSucceed;
     rendered := Samples.helloDocument;
     metrics := Samples.someMetrics |}.

End Notions.

(* ================================================================= *)
(** * Properties *)

Module Properties.
Import Js JsString Dom Measure Markup Viewport Effects Ops Observe Notions.

(** Unfold the monadic operations of a script. *)
Ltac unfold_script :=
  unfold outcome, events, run, Part000.generateExactPdf, Part000.tryBlock,
    TestPdf.generatePdf, Part001.generateExactPdf,
    tryFinally, tryCatch, bind, launch, await, jsonParseArgv, closeIfLaunched,
    consoleLog, consoleError, emit, processExit, getBrowser, setBrowser, ret,
    throw, Part000.normalised, initial.

(** Follow the script along one more browser call, both ways. *)
Ltac branch_on_call env :=
  match goal with
  | |- context [succeeds env ?at_] =>
      let E := fresh "E" in destruct (succeeds env at_) eqn:E; cbn
  end.

(** Side conditions on concrete strings. *)
Ltac fragment_side := first [discriminate | reflexivity].

(* ----------------------------------------------------------------- *)
(** ** Viewport selection *)

Lemma strictEq_num (v : value) (n : Z) : strictEq v (VNum n) = true -> v = VNum n.
Proof.
  destruct v; cbn; try discriminate.
  intros H. apply Z.eqb_eq in H. now subst.
Qed.

Lemma strictEq_str (v : value) (t : string) : strictEq v (VStr t) = true -> v = VStr t.
Proof.
  destruct v; cbn; try discriminate.
  intros H. apply String.eqb_eq in H. now subst.
Qed.

Lemma choose_mobile (deviceWidth : value) :
  choose (VStr "mobile") deviceWidth =
  {| viewportWidth := Some 360; pdfTitle := "Mobile View PDF" |}.
Proof. reflexivity. Qed.

(** Whatever the request, the title is one of the three. *)
Lemma choose_title (viewType deviceWidth : value) :
  In (pdfTitle (choose viewType deviceWidth)) pdfTitles.
Proof.
  unfold choose, pdfTitles.
  destruct (strictEq viewType (VStr "mobile")); [now left|].
  destruct (strictEq deviceWidth (VNum defaultDesktopWidth)); cbn;
    [right; right; now left | right; now left].
Qed.

(** The selection made on the fields once defaulted with 'desktop' and
    610: the custom branch without a [deviceWidth], the desktop branch only
    for the number 600, the custom branch for the string "600". *)
Lemma choose_after_defaults :
  (forall viewType, viewType = VUndefined \/ viewType = VStr "desktop" ->
     choose (or viewType (VStr "desktop")) (or VUndefined (VNum 610)) =
     {| viewportWidth := Some 610; pdfTitle := "Custom View PDF" |})
  /\ (forall viewType deviceWidth,
        pdfTitle (choose (or viewType (VStr "desktop")) (or deviceWidth (VNum 610)))
          = "Desktop View PDF" ->
        deviceWidth = VNum 600
        /\ choose (or viewType (VStr "desktop")) (or deviceWidth (VNum 610)) =
           {| viewportWidth := Some 600; pdfTitle := "Desktop View PDF" |})
  /\ (forall viewType, viewType = VUndefined \/ viewType = VStr "desktop" ->
        choose (or viewType (VStr "desktop")) (or (VNum 600) (VNum 610)) =
        {| viewportWidth := Some 600; pdfTitle := "Desktop View PDF" |}
        /\ choose (or viewType (VStr "desktop")) (or (VStr "600") (VNum 610)) =
           {| viewportWidth := Some 600; pdfTitle := "Custom View PDF" |}).
Proof.
  split; [|split].
  - intros viewType [-> | ->]; reflexivity.
  - intros viewType deviceWidth. unfold choose.
    destruct (strictEq (or viewType (VStr "desktop")) (VStr "mobile")); cbn;
      [discriminate|].
    destruct (strictEq (or deviceWidth (VNum 610)) (VNum defaultDesktopWidth)) eqn:E;
      cbn; [|discriminate].
    intros _. split; [|reflexivity].
    apply strictEq_num in E. unfold or in E.
    destruct (truthy deviceWidth); [assumption|discriminate].
  - intros viewType [-> | ->]; split; reflexivity.
Qed.

(* ----------------------------------------------------------------- *)
(** ** Markup normalisation *)

Lemma startsWith_app_suffixFree (x c q : string) :
  suffixFree c q = true -> startsWith (x ++ c) q = startsWith x q.
Proof.
  revert q. induction x as [|a x IH]; intros q Hq.
  - destruct q as [|b q]; [reflexivity|].
    cbn [suffixFree] in Hq. apply andb_prop in Hq. destruct Hq as [Hq _].
    apply negb_true_iff in Hq. cbn [append]. rewrite Hq. reflexivity.
  - destruct q as [|b q]; [reflexivity|].
    cbn [append startsWith]. cbn [suffixFree] in Hq.
    apply andb_prop in Hq. destruct Hq as [_ Hq]. now rewrite IH.
Qed.

Lemma startsWith_app_overlapFree (a : ascii) (x c p : string) :
  overlapFree p c = true ->
  startsWith (String a x ++ c) p = startsWith (String a x) p.
Proof.
  intros Hp. destruct p as [|b p]; [reflexivity|].
  cbn [append startsWith]. cbn [overlapFree] in Hp.
  now rewrite startsWith_app_suffixFree.
Qed.

(** Occurrences in a concatenation, when none can straddle the seam. *)
Lemma count_app (x c p : string) :
  overlapFree p c = true ->
  count (x ++ c) p = (count x p + count c p)%nat.
Proof.
  intros Hp. induction x as [|a x IH]; [reflexivity|].
  change (String a x ++ c) with (String a (x ++ c)) at 1.
  cbn [count].
  change (String a (x ++ c)) with (String a x ++ c).
  rewrite (startsWith_app_overlapFree a x c p Hp), IH.
  now rewrite Nat.add_assoc.
Qed.

Lemma includes_count (s p : string) :
  p <> EmptyString -> includes s p = (0 <? count s p)%nat.
Proof.
  intros Hp. unfold includes. induction s as [|a s IH].
  - destruct p; [now elim Hp | reflexivity].
  - cbn [indexOf count].
    destruct (startsWith (String a s) p); [reflexivity|].
    cbn [Nat.add]. rewrite <- IH.
    destruct (indexOf s p); reflexivity.
Qed.

Lemma includes_false_count (s p : string) :
  p <> EmptyString -> includes s p = false -> count s p = 0%nat.
Proof.
  intros Hp H. rewrite (includes_count s p Hp) in H.
  apply Nat.ltb_ge in H. lia.
Qed.

Lemma wrapFragment_fragment (m : string) :
  includes m "<html" = false ->
  wrapFragment m = "<!DOCTYPE html><html><head></head><body>" ++ m ++ "</body></html>".
Proof. intros H. unfold wrapFragment. now rewrite H. Qed.

(** Counting in a document that is a fragment [m] between a known opening
    and the closing ["</body></html>"]: what the opening contributes is found
    by evaluation, and no occurrence straddles the seam before the closing. *)
Lemma count_in_fragment (doc m p : string) (n : nat) :
  overlapFree p "</body></html>" = true ->
  count "</body></html>" p = 0%nat ->
  count doc p = (n + count (m ++ "</body></html>") p)%nat ->
  count doc p = (n + count m p)%nat.
Proof. intros Hfree Hend ->. rewrite (count_app m _ p Hfree), Hend. lia. Qed.

Lemma includes_in_fragment (doc m p : string) :
  p <> EmptyString ->
  overlapFree p "</body></html>" = true ->
  count "</body></html>" p = 0%nat ->
  count doc p = (0 + count (m ++ "</body></html>") p)%nat ->
  includes doc p = includes m p.
Proof.
  intros Hp Hfree Hend Hdoc. rewrite !includes_count by assumption.
  now rewrite (count_in_fragment doc m p 0 Hfree Hend Hdoc).
Qed.

(** C4 as stated promises exactly one [<head>] and one viewport meta tag
    for every fragment.  A fragment that brings its own [<head>] is wrapped
    all the same, and the document then holds two. *)
Lemma fragment_with_head_gets_a_second_one :
  ~ (forall pdfTitle markup,
       In pdfTitle pdfTitles -> includes markup "<html" = false ->
       count (finalHtmlContent pdfTitle markup) "<html" = 1%nat
       /\ count (finalHtmlContent pdfTitle markup) "<head>" = 1%nat
       /\ count (finalHtmlContent pdfTitle markup) metaViewportProbe = 1%nat).
Proof.
  intros H.
  destruct (H "Custom View PDF" "<head></head><p>Hi</p>") as (_ & Hhead & _).
  - right; left; reflexivity.
  - reflexivity.
  - vm_compute in Hhead. discriminate.
Qed.

(** C4 (amended).  For markup without [<html], the normalised document
    contains [<html] exactly once, [<head>] once more than the markup does,
    and the viewport meta tag as often as the markup does, but at least
    once.  So it contains exactly one of each when the markup itself has no
    [<head>] and at most one viewport meta tag; an existing viewport meta
    tag is not duplicated. *)
Theorem normalised_fragment_tag_counts (pdfTitle markup : string) :
  In pdfTitle pdfTitles -> includes markup "<html" = false ->
  count (finalHtmlContent pdfTitle markup) "<html" = 1%nat
  /\ count (finalHtmlContent pdfTitle markup) "<head>"
     = (1 + count markup "<head>")%nat
  /\ count (finalHtmlContent pdfTitle markup) metaViewportProbe
     = Nat.max 1 (count markup metaViewportProbe).
Proof.
  intros Ht Hhtml.
  pose proof (includes_false_count markup "<html" ltac:(discriminate) Hhtml) as Hnone.
  pose proof (includes_count markup metaViewportProbe ltac:(discriminate)) as Hmeta.
  unfold finalHtmlContent. rewrite (wrapFragment_fragment markup Hhtml).
  unfold addHead.
  change (includes ("<!DOCTYPE html><html><head></head><body>"
                    ++ markup ++ "</body></html>") "<head>") with true.
  cbn [negb]. unfold addMetaViewport.
  rewrite (includes_in_fragment _ markup metaViewportProbe) by fragment_side.
  unfold pdfTitles in Ht. cbn [In] in Ht.
  destruct (includes markup metaViewportProbe) eqn:Em; cbn [negb];
    unfold addTitle;
    rewrite (includes_in_fragment _ markup "<title>") by fragment_side;
    (destruct (includes markup "<title>") eqn:Et; cbn [negb]);
    destruct Ht as [<- | [<- | [<- | []]]];
    (split; [|split]);
    try (rewrite (count_in_fragment _ markup "<html" 1) by fragment_side; lia);
    try (rewrite (count_in_fragment _ markup "<head>" 1) by fragment_side; lia);
    symmetry in Hmeta;
    (apply Nat.ltb_lt in Hmeta || apply Nat.ltb_ge in Hmeta);
    first
      [ rewrite (count_in_fragment _ markup metaViewportProbe 0) by fragment_side; lia
      | rewrite (count_in_fragment _ markup metaViewportProbe 1) by fragment_side; lia ].
Qed.

Lemma normalised_fragment_tag_counts_witness :
  count (finalHtmlContent "Custom View PDF" "<p>Hello</p>") "<html" = 1%nat.
Proof.
  apply (normalised_fragment_tag_counts "Custom View PDF" "<p>Hello</p>").
  - right; left; reflexivity.
  - reflexivity.
Defined.

(* ----------------------------------------------------------------- *)
(** ** The content measurement *)

Lemma elementsOf_Elem t st box c kids :
  elementsOf (Elem t st box c kids)
  = {| tagName := t; complete := c; textContent := nodeText (Elem t st box c kids);
       computedStyle := st; boundingClientRect := box |}
    :: elementsOfNodes kids.
Proof.
  reflexivity.
Qed.

Lemma nodeText_Elem t st box c kids :
  nodeText (Elem t st box c kids) = textOfNodes kids.
Proof.
  cbn [nodeText].
  induction kids as [|k kids IH]; [reflexivity|].
  cbn [textOfNodes fold_right]. now rewrite IH.
Qed.

Lemma textOfNodes_app (l1 l2 : list node) :
  textOfNodes (l1 ++ l2) = textOfNodes l1 ++ textOfNodes l2.
Proof.
  induction l1 as [|k l1 IH]; [reflexivity|].
  cbn [app textOfNodes fold_right]. fold (textOfNodes (l1 ++ l2)).
  fold (textOfNodes l1). rewrite IH.
  generalize (nodeText k) as a. intros a.
  induction a as [|ch a IHa]; [reflexivity|]. cbn. now rewrite IHa.
Qed.

Lemma querySelectorAll_eq (d : document) :
  querySelectorAll d
  = (htmlElement d :: elementsOf (head d)
       ++ body d :: elementsOfNodes (body_childNodes d))%list.
Proof.
  unfold querySelectorAll, documentElement at 1. rewrite elementsOf_Elem.
  unfold htmlElement, documentElement. f_equal.
  cbn [elementsOfNodes flat_map]. f_equal.
  unfold bodyNode at 1. rewrite elementsOf_Elem. rewrite List.app_nil_r.
  reflexivity.
Qed.

(** The scan leaves its state alone on elements that are hidden, have no
    content, or do not reach below the current maximum. *)
Lemma scan_unchanged (els : list element) (acc : scanState) :
  (forall el, In el els ->
     qualifies el = false
     \/ (bottom (boundingClientRect el) <= maxBottom acc)%Q) ->
  fold_left scanStep els acc = acc.
Proof.
  induction els as [|el els IH]; intros H; [reflexivity|].
  cbn [fold_left].
  assert (Hstep : scanStep acc el = acc).
  { unfold scanStep. destruct (H el (or_introl eq_refl)) as [Hq | Hb].
    - unfold qualifies in Hq.
      destruct (hidden (computedStyle el)); [reflexivity|].
      cbn in Hq. now rewrite Hq.
    - destruct (hidden (computedStyle el)); [reflexivity|].
      unfold Qgtb. apply Qle_bool_iff in Hb. rewrite Hb.
      now rewrite andb_false_r. }
  rewrite Hstep. apply IH. intros el' Hin. apply H. now right.
Qed.

Lemma scan_grows (els : list element) (acc : scanState) :
  (maxBottom acc <= maxBottom (fold_left scanStep els acc))%Q.
Proof.
  revert acc. induction els as [|el els IH]; intros acc; [apply Qle_refl|].
  cbn [fold_left]. eapply Qle_trans; [|apply IH].
  unfold scanStep. destruct (hidden (computedStyle el)); [apply Qle_refl|].
  destruct (hasVisibleContent el); cbn [andb]; [|apply Qle_refl].
  unfold Qgtb.
  destruct (Qle_bool (bottom (boundingClientRect el)) (maxBottom acc)) eqn:E;
    cbn [negb maxBottom]; [apply Qle_refl|].
  apply Qlt_le_weak. apply Qnot_le_lt. intros Hle.
  apply Qle_bool_iff in Hle. congruence.
Qed.

Lemma scan_covers (els : list element) (acc : scanState) (el : element) :
  In el els -> qualifies el = true ->
  (bottom (boundingClientRect el) <= maxBottom (fold_left scanStep els acc))%Q.
Proof.
  revert acc. induction els as [|x els IH]; intros acc Hin Hq; [destruct Hin|].
  cbn [fold_left]. destruct Hin as [-> | Hin]; [|now apply IH].
  eapply Qle_trans; [|apply scan_grows].
  unfold qualifies in Hq. apply andb_prop in Hq. destruct Hq as [Hh Hc].
  unfold scanStep. apply negb_true_iff in Hh. rewrite Hh, Hc. cbn [andb].
  unfold Qgtb.
  destruct (Qle_bool (bottom (boundingClientRect el)) (maxBottom acc)) eqn:E;
    cbn [negb maxBottom]; [now apply Qle_bool_iff | apply Qle_refl].
Qed.

Lemma scan_attained (els : list element) (acc : scanState) :
  maxBottom (fold_left scanStep els acc) = maxBottom acc
  \/ exists el, In el els /\ qualifies el = true
       /\ maxBottom (fold_left scanStep els acc) = bottom (boundingClientRect el).
Proof.
  revert acc. induction els as [|x els IH]; intros acc; [now left|].
  cbn [fold_left]. destruct (IH (scanStep acc x)) as [Heq | (el & Hin & Hq & Heq)].
  - rewrite Heq. unfold scanStep.
    destruct (hidden (computedStyle x)) eqn:Hh; [now left|].
    destruct (hasVisibleContent x) eqn:Hc; cbn [andb]; [|now left].
    destruct (Qgtb (bottom (boundingClientRect x)) (maxBottom acc)); [|now left].
    right. exists x. split; [now left|]. split; [|reflexivity].
    unfold qualifies. now rewrite Hh, Hc.
  - right. exists el. split; [now right|]. split; assumption.
Qed.


(** C2 as stated looks only at the elements inside the body.  The scan
    also visits [html] and [body], and their [textContent] includes the text
    of descendants that are not displayed: on a page whose single paragraph
    is not displayed, [html] counts as visible content and the result is
    its bottom edge, 50, not the body's, 30. *)
Lemma hidden_body_content_does_not_force_fallback :
  ~ (forall d,
       (forall el, In el (elementsOfNodes (body_childNodes d)) ->
                   display (computedStyle el) = "none") ->
       measureContentHeight d = Qceiling (bottom (boundingClientRect (body d)))).
Proof.
  intros H. specialize (H Samples.hiddenParagraphDocument).
  assert (Hin : forall el,
             In el (elementsOfNodes (body_childNodes Samples.hiddenParagraphDocument)) ->
             display (computedStyle el) = "none").
  { cbn. intros el [<- | []]. reflexivity. }
  specialize (H Hin). vm_compute in H. discriminate.
Qed.

(** C2 (amended).  When every element inside the body has [display:none]
    and none of the other elements the scan visits ([html], the head with
    its content, [body]) counts as visible content with a positive bottom
    edge, the measurement takes the fallback branch and returns the bottom
    edge of the body's bounding box, rounded up. *)
Theorem hidden_page_measures_body_bottom (d : document) :
  (forall el, In el (elementsOfNodes (body_childNodes d)) ->
              display (computedStyle el) = "none") ->
  (forall el, In el (outerElements d) ->
              qualifies el = false \/ (bottom (boundingClientRect el) <= 0)%Q) ->
  lastVisibleElement (scan (querySelectorAll d)) = None
  /\ measureContentHeight d = Qceiling (bottom (boundingClientRect (body d))).
Proof.
  intros Hinside Houter.
  assert (Hscan : scan (querySelectorAll d) = scanStart).
  { unfold scan. apply scan_unchanged. intros el Hin.
    rewrite querySelectorAll_eq in Hin. cbn [maxBottom scanStart].
    assert (Hcases : In el (outerElements d)
                     \/ In el (elementsOfNodes (body_childNodes d))).
    { unfold outerElements. cbn [In] in *. rewrite in_app_iff in *. cbn [In] in *.
      tauto. }
    destruct Hcases as [Hout | Hins]; [now apply Houter|].
    left. unfold qualifies, hidden. rewrite (Hinside el Hins). reflexivity. }
  unfold measureContentHeight. rewrite Hscan. split; reflexivity.
Qed.

Lemma hidden_page_measures_body_bottom_witness :
  measureContentHeight Samples.blankDocument = 8.
Proof.
  refine (proj2 (hidden_page_measures_body_bottom Samples.blankDocument _ _)).
  - cbn. intros el [<- | []]. reflexivity.
  - cbn. intros el [<- | [<- | [<- | [<- | []]]]]; left; reflexivity.
Defined.

Lemma hasInk_trimStart (s : string) : hasInk (trimStart s) = hasInk s.
Proof.
  induction s as [|a s IH]; [reflexivity|].
  cbn [trimStart hasInk]. destruct (isWhiteSpace a) eqn:E; [exact IH|].
  cbn [hasInk]. now rewrite E.
Qed.

Lemma trimEnd_empty (s : string) : trimEnd s = EmptyString -> hasInk s = false.
Proof.
  induction s as [|a s IH]; [reflexivity|].
  cbn [trimEnd hasInk]. destruct (trimEnd s); [|discriminate].
  destruct (isWhiteSpace a); [|discriminate]. intros _. now apply IH.
Qed.

Lemma trimEnd_inked (s : string) : trimEnd s <> EmptyString -> hasInk s = true.
Proof.
  induction s as [|a s IH]; [now intros H; elim H|].
  cbn [trimEnd hasInk]. destruct (trimEnd s).
  - destruct (isWhiteSpace a); [now intros H; elim H | reflexivity].
  - intros _. rewrite IH by discriminate. apply orb_true_r.
Qed.

(** [textContent.trim().length > 0] says that the text is not blank. *)
Lemma trim_length_positive (s : string) :
  (0 <? String.length (trim s))%nat = hasInk s.
Proof.
  unfold trim. rewrite <- (hasInk_trimStart s).
  destruct (trimEnd (trimStart s)) eqn:E.
  - cbn. symmetry. now apply trimEnd_empty.
  - cbn. symmetry. apply trimEnd_inked. rewrite E. discriminate.
Qed.

Lemma hasInk_app (a b : string) : hasInk (a ++ b) = hasInk a || hasInk b.
Proof.
  induction a as [|ch a IH]; [reflexivity|].
  cbn [append hasInk]. rewrite IH. apply orb_assoc.
Qed.

(** An element that gains text and keeps its style and box still qualifies. *)
Lemma qualifies_with_more_text (el el' : element) :
  tagName el' = tagName el -> complete el' = complete el ->
  computedStyle el' = computedStyle el ->
  (hasInk (textContent el) = true -> hasInk (textContent el') = true) ->
  qualifies el = true -> qualifies el' = true.
Proof.
  intros Ht Hc Hs Hink. unfold qualifies, hasVisibleContent.
  rewrite Ht, Hc, Hs, !trim_length_positive.
  destruct (hidden (computedStyle el)); [discriminate|]. cbn [negb andb].
  destruct (hasInk (textContent el)); [now rewrite Hink|].
  destruct (hasInk (textContent el')); [reflexivity|]. trivial.
Qed.

(** Appending to the body keeps every element the scan visited, no higher
    than it was, and keeps it qualifying when it qualified. *)
Lemma appendChild_keeps_elements (d : document) (e : node)
    (htmlBox bodyBox : DOMRect) (el : element) :
  (bottom (html_rect d) <= bottom htmlBox)%Q ->
  (bottom (body_rect d) <= bottom bodyBox)%Q ->
  In el (querySelectorAll d) -> qualifies el = true ->
  exists el', In el' (querySelectorAll (appendChild d e htmlBox bodyBox))
              /\ qualifies el' = true
              /\ (bottom (boundingClientRect el) <= bottom (boundingClientRect el'))%Q.
Proof.
  intros Hhtml Hbody.
  rewrite !querySelectorAll_eq. cbn [In]. rewrite !in_app_iff. cbn [In].
  intros Hin Hq. destruct Hin as [Hel | [Hhead | [Hel | Hkids]]];
    [subst el | | subst el | ].
  - exists (htmlElement (appendChild d e htmlBox bodyBox)).
    split; [now left|]. split; [|exact Hhtml].
    revert Hq. apply qualifies_with_more_text; try reflexivity.
    cbn [textContent htmlElement]. unfold documentElement, bodyNode.
    rewrite !nodeText_Elem. cbn [textOfNodes fold_right].
    rewrite !nodeText_Elem. cbn [body_childNodes appendChild head].
    rewrite textOfNodes_app, !hasInk_app.
    destruct (hasInk (nodeText (head d))); [reflexivity|].
    destruct (hasInk (textOfNodes (body_childNodes d))); [reflexivity|].
    cbn. discriminate.
  - exists el. split; [right; apply in_or_app; left; exact Hhead|].
    split; [assumption|apply Qle_refl].
  - exists (body (appendChild d e htmlBox bodyBox)).
    split; [right; apply in_or_app; right; now left|].
    split; [|exact Hbody].
    revert Hq. apply qualifies_with_more_text; try reflexivity.
    cbn [textContent body]. unfold bodyNode.
    rewrite !nodeText_Elem. cbn [body_childNodes appendChild].
    rewrite textOfNodes_app, !hasInk_app.
    intros ->. reflexivity.
  - exists el. split; [|split; [assumption|apply Qle_refl]].
    right. apply in_or_app. right. right. cbn [body_childNodes appendChild].
    unfold elementsOfNodes. rewrite flat_map_app. apply in_or_app. now left.
Qed.

(** The appended element is among those the scan visits afterwards. *)
Lemma appendChild_adds_element (d : document) (e : node)
    (htmlBox bodyBox : DOMRect) (el : element) :
  asElement e = Some el ->
  In el (querySelectorAll (appendChild d e htmlBox bodyBox)).
Proof.
  unfold asElement. intros He.
  rewrite querySelectorAll_eq. right. apply in_or_app. right. right.
  cbn [body_childNodes appendChild].
  unfold elementsOfNodes. rewrite flat_map_app. apply in_or_app. right.
  cbn [flat_map]. rewrite List.app_nil_r.
  destruct (elementsOf e) as [|x l]; [discriminate|].
  injection He as ->. now left.
Qed.

(** C6 as stated: the height does not decrease when visible content is
    appended at the bottom.  The result adds the bottom margin of the one
    element that reaches lowest: the body in the sample ends at 100 pixels
    and has a margin of 50, which gives 150; with a block appended that
    ends at 120 pixels and has no margin (it is positioned out of the flow,
    so [html] and [body] keep their boxes) the result is 120. *)
Lemma appended_block_lowers_measured_height :
  ~ (forall d e el htmlBox bodyBox,
       asElement e = Some el -> qualifies el = true ->
       (forall x, In x (querySelectorAll d) ->
          (bottom (boundingClientRect x) <= bottom (boundingClientRect el))%Q) ->
       (bottom (html_rect d) <= bottom htmlBox)%Q ->
       (bottom (body_rect d) <= bottom bodyBox)%Q ->
       measureContentHeight d
       <= measureContentHeight (appendChild d e htmlBox bodyBox)).
Proof.
  intros H.
  specialize (H Samples.marginDocument Samples.lowBlock _
                (html_rect Samples.marginDocument) (body_rect Samples.marginDocument)
                eq_refl eq_refl).
  assert (Hlow : forall x, In x (querySelectorAll Samples.marginDocument) ->
            (bottom (boundingClientRect x)
             <= bottom (boundingClientRect
                          {| tagName := "DIV"; complete := false;
                             textContent := nodeText Samples.lowBlock;
                             computedStyle := Samples.shown "0px";
                             boundingClientRect := Samples.bottomAt 120 |}))%Q).
  { cbn. intros x [<- | [<- | [<- | [<- | [<- | [<- | []]]]]]]; cbn;
      unfold Qle; cbn; lia. }
  specialize (H Hlow (Qle_refl _) (Qle_refl _)). vm_compute in H. apply H. reflexivity.
Qed.

Lemma scanStep_cases (acc : scanState) (x : element) :
  scanStep acc x = acc
  /\ (qualifies x = true ->
      (bottom (boundingClientRect x) <= maxBottom acc)%Q)
  \/ scanStep acc x
     = {| maxBottom := bottom (boundingClientRect x); lastVisibleElement := Some x |}
     /\ qualifies x = true
     /\ (maxBottom acc < bottom (boundingClientRect x))%Q.
Proof.
  unfold scanStep, qualifies.
  destruct (hidden (computedStyle x)); [left; split; [reflexivity|discriminate]|].
  destruct (hasVisibleContent x); cbn [andb negb];
    [|left; split; [reflexivity|discriminate]].
  unfold Qgtb.
  destruct (Qle_bool (bottom (boundingClientRect x)) (maxBottom acc)) eqn:E;
    cbn [negb].
  - left. split; [reflexivity|]. intros _. now apply Qle_bool_iff.
  - right. split; [reflexivity|]. split; [reflexivity|].
    apply Qnot_le_lt. intros Hle. apply Qle_bool_iff in Hle. congruence.
Qed.

(** Once an element has been recorded, one stays recorded. *)
Lemma scan_keeps_found (els : list element) (acc : scanState) :
  lastVisibleElement acc <> None ->
  lastVisibleElement (fold_left scanStep els acc) <> None.
Proof.
  revert acc. induction els as [|x els IH]; intros acc Hacc; [assumption|].
  cbn [fold_left]. apply IH.
  destruct (scanStep_cases acc x) as [[-> _] | [-> _]]; [assumption|discriminate].
Qed.

(** When nothing is recorded, no qualifying element reaches below the
    starting value. *)
Lemma scan_nothing_found (els : list element) (acc : scanState) :
  lastVisibleElement (fold_left scanStep els acc) = None ->
  fold_left scanStep els acc = acc.
Proof.
  revert acc. induction els as [|x els IH]; intros acc Hnone; [reflexivity|].
  cbn [fold_left] in *.
  destruct (scanStep_cases acc x) as [[E _] | [E _]]; rewrite E in *.
  - now apply IH.
  - exfalso. revert Hnone. apply scan_keeps_found. discriminate.
Qed.

(** A recorded element lies strictly below the top of the page. *)
Lemma scan_found_positive (els : list element) (acc : scanState) :
  (0 <= maxBottom acc)%Q ->
  (lastVisibleElement acc <> None -> (0 < maxBottom acc)%Q) ->
  lastVisibleElement (fold_left scanStep els acc) <> None ->
  (0 < maxBottom (fold_left scanStep els acc))%Q.
Proof.
  revert acc. induction els as [|x els IH]; intros acc Hnn Hpos Hfound;
    [now apply Hpos|].
  cbn [fold_left] in *.
  destruct (scanStep_cases acc x) as [[E _] | [E [_ Hlt]]]; rewrite E in *.
  - now apply IH.
  - assert (Hx : (0 < bottom (boundingClientRect x))%Q)
      by (eapply Qle_lt_trans; eassumption).
    apply IH; cbn [maxBottom lastVisibleElement];
      [now apply Qlt_le_weak | intros _; exact Hx | assumption].
Qed.

Lemma tracked_bottom_edge_grows (d : document) (e : node)
    (htmlBox bodyBox : DOMRect) :
  (bottom (html_rect d) <= bottom htmlBox)%Q ->
  (bottom (body_rect d) <= bottom bodyBox)%Q ->
  (maxBottom (scan (querySelectorAll d))
   <= maxBottom (scan (querySelectorAll (appendChild d e htmlBox bodyBox))))%Q.
Proof.
  intros Hhtml Hbody. unfold scan.
  destruct (scan_attained (querySelectorAll d) scanStart)
    as [Heq | (el & Hin & Hq & Heq)]; rewrite Heq.
  - apply scan_grows.
  - destruct (appendChild_keeps_elements d e htmlBox bodyBox el Hhtml Hbody Hin Hq)
      as (el' & Hin' & Hq' & Hbox).
    eapply Qle_trans; [exact Hbox|]. now apply scan_covers.
Qed.

Lemma found_after_appendChild (d : document) (e : node)
    (htmlBox bodyBox : DOMRect) :
  (bottom (html_rect d) <= bottom htmlBox)%Q ->
  (bottom (body_rect d) <= bottom bodyBox)%Q ->
  lastVisibleElement (scan (querySelectorAll d)) <> None ->
  lastVisibleElement (scan (querySelectorAll (appendChild d e htmlBox bodyBox)))
  <> None.
Proof.
  intros Hhtml Hbody Hfound Hnone.
  assert (Hpos : (0 < maxBottom (scan (querySelectorAll d)))%Q).
  { unfold scan. apply scan_found_positive;
      [apply Qle_refl | intros H; now elim H | exact Hfound]. }
  pose proof (tracked_bottom_edge_grows d e htmlBox bodyBox Hhtml Hbody) as Hgrow.
  unfold scan in Hnone. apply scan_nothing_found in Hnone.
  unfold scan in Hgrow at 2. rewrite Hnone in Hgrow. cbn [maxBottom scanStart] in Hgrow.
  apply (Qlt_irrefl 0). eapply Qlt_le_trans; eassumption.
Qed.

(** C6 (amended).  Let a visible element [e] be appended at the bottom of
    the body: its bottom edge is at or below that of every element of the
    document, the elements inside the body keep their boxes, and the boxes
    of [html] and [body] end no higher than before.  Then the measured
    height does not decrease, provided the bottom margin the measurement
    adds (that of the element the scan ends on, nothing where it finds no
    visible content) is not smaller after appending than before. *)
Theorem appended_content_keeps_height (d : document) (e : node) (el : element)
    (htmlBox bodyBox : DOMRect) :
  asElement e = Some el -> qualifies el = true ->
  (forall x, In x (querySelectorAll d) ->
     (bottom (boundingClientRect x) <= bottom (boundingClientRect el))%Q) ->
  (bottom (html_rect d) <= bottom htmlBox)%Q ->
  (bottom (body_rect d) <= bottom bodyBox)%Q ->
  marginOfLowest d <= marginOfLowest (appendChild d e htmlBox bodyBox) ->
  measureContentHeight d <= measureContentHeight (appendChild d e htmlBox bodyBox).
Proof.
  intros He Hq Hlow Hhtml Hbody Hmargin.
  pose proof (tracked_bottom_edge_grows d e htmlBox bodyBox Hhtml Hbody) as Hgrow.
  pose proof (found_after_appendChild d e htmlBox bodyBox Hhtml Hbody) as Hfound.
  unfold marginOfLowest in Hmargin. unfold measureContentHeight.
  destruct (lastVisibleElement (scan (querySelectorAll d))) as [l|] eqn:Hl.
  - destruct (lastVisibleElement
                (scan (querySelectorAll (appendChild d e htmlBox bodyBox))))
      as [l'|] eqn:Hl'; [|elim Hfound; [discriminate|reflexivity]].
    apply Qceiling_resp_le. apply Qplus_le_compat; [exact Hgrow|].
    now rewrite <- Zle_Qle.
  - destruct (lastVisibleElement
                (scan (querySelectorAll (appendChild d e htmlBox bodyBox))))
      as [l'|] eqn:Hl'.
    + apply Qceiling_resp_le.
      assert (Hbelow : (bottom (boundingClientRect (body d))
                        <= bottom (boundingClientRect el))%Q).
      { apply Hlow. rewrite querySelectorAll_eq. right. apply in_or_app.
        right. now left. }
      assert (Hcovered : (bottom (boundingClientRect el)
                          <= maxBottom (scan (querySelectorAll
                                                (appendChild d e htmlBox bodyBox))))%Q).
      { unfold scan. apply scan_covers; [|exact Hq].
        now apply appendChild_adds_element. }
      apply Qle_trans with
        (maxBottom (scan (querySelectorAll (appendChild d e htmlBox bodyBox))) + 0)%Q.
      * rewrite Qplus_0_r. eapply Qle_trans; eassumption.
      * apply Qplus_le_compat; [apply Qle_refl|].
        change 0%Q with (inject_Z 0). now rewrite <- Zle_Qle.
    + apply Qceiling_resp_le. exact Hbody.
Qed.

Lemma appended_content_keeps_height_witness :
  measureContentHeight Samples.helloDocument
  <= measureContentHeight
       (appendChild Samples.helloDocument Samples.secondParagraph
          (Samples.bottomAt 84) (Samples.bottomAt 68)).
Proof.
  eapply (appended_content_keeps_height
            Samples.helloDocument Samples.secondParagraph).
  - reflexivity.
  - reflexivity.
  - cbn. intros x [<- | [<- | [<- | [<- | [<- | [<- | []]]]]]]; cbn;
      unfold Qle; cbn; lia.
  - vm_compute. discriminate.
  - vm_compute. discriminate.
  - vm_compute. discriminate.
Defined.

(* ----------------------------------------------------------------- *)
(** ** [parseInt] on a number *)

Lemma digitValue_digits :
  digitValue "0" = Some 0 /\ digitValue "1" = Some 1 /\ digitValue "2" = Some 2
  /\ digitValue "3" = Some 3 /\ digitValue "4" = Some 4 /\ digitValue "5" = Some 5
  /\ digitValue "6" = Some 6 /\ digitValue "7" = Some 7 /\ digitValue "8" = Some 8
  /\ digitValue "9" = Some 9.
Proof. repeat split; vm_compute; reflexivity. Qed.

Lemma readDigits_digit (a : ascii) (k : Z) (acc : option Z) (s : string) :
  digitValue a = Some k ->
  readDigits acc (String a s)
  = readDigits (Some (10 * match acc with Some n => n | None => 0 end + k)) s.
Proof. intros H. cbn [readDigits]. now rewrite H. Qed.

Lemma readDigits_numeral (d : Decimal.uint) (acc : Z) :
  readDigits (Some acc) (NilEmpty.string_of_uint d) = Some (uintValue acc d).
Proof.
  destruct digitValue_digits as (D0 & D1 & D2 & D3 & D4 & D5 & D6 & D7 & D8 & D9).
  revert acc. induction d; intros acc; cbn [NilEmpty.string_of_uint uintValue];
    [reflexivity | ..].
  - rewrite (readDigits_digit _ _ _ _ D0). apply IHd.
  - rewrite (readDigits_digit _ _ _ _ D1). apply IHd.
  - rewrite (readDigits_digit _ _ _ _ D2). apply IHd.
  - rewrite (readDigits_digit _ _ _ _ D3). apply IHd.
  - rewrite (readDigits_digit _ _ _ _ D4). apply IHd.
  - rewrite (readDigits_digit _ _ _ _ D5). apply IHd.
  - rewrite (readDigits_digit _ _ _ _ D6). apply IHd.
  - rewrite (readDigits_digit _ _ _ _ D7). apply IHd.
  - rewrite (readDigits_digit _ _ _ _ D8). apply IHd.
  - rewrite (readDigits_digit _ _ _ _ D9). apply IHd.
Qed.

(** What [parseInt] does with a string once ToString has been applied. *)
Lemma parseInt_unfold (v : value) :
  parseInt v =
  match trimStart (toString v) with
  | String "-" s' => option_map Z.opp (readDigits None s')
  | String "+" s' => readDigits None s'
  | s => readDigits None s
  end.
Proof. reflexivity. Qed.

Lemma parse_leading_digit (a : ascii) (k : Z) (s : string) :
  digitValue a = Some k ->
  match trimStart (String a s) with
  | String "-" s' => option_map Z.opp (readDigits None s')
  | String "+" s' => readDigits None s'
  | t => readDigits None t
  end = readDigits (Some k) s.
Proof.
  intros H.
  assert (Hw : isWhiteSpace a = false).
  { destruct a as [[] [] [] [] [] [] [] []]; try reflexivity;
      vm_compute in H; discriminate. }
  cbn [trimStart]. rewrite Hw.
  assert (Hsign : readDigits None (String a s) = readDigits (Some k) s).
  { rewrite (readDigits_digit _ _ _ _ H). reflexivity. }
  destruct a as [[] [] [] [] [] [] [] []]; try exact Hsign;
    vm_compute in H; discriminate.
Qed.

Lemma parse_numeral (d : Decimal.uint) :
  d <> Decimal.Nil ->
  match trimStart (NilEmpty.string_of_uint d) with
  | String "-" s' => option_map Z.opp (readDigits None s')
  | String "+" s' => readDigits None s'
  | s => readDigits None s
  end = Some (uintValue 0 d).
Proof.
  destruct digitValue_digits as (D0 & D1 & D2 & D3 & D4 & D5 & D6 & D7 & D8 & D9).
  destruct d; intros Hd; [now elim Hd | ..];
    cbn [NilEmpty.string_of_uint uintValue].
  - rewrite (parse_leading_digit _ _ _ D0). apply readDigits_numeral.
  - rewrite (parse_leading_digit _ _ _ D1). apply readDigits_numeral.
  - rewrite (parse_leading_digit _ _ _ D2). apply readDigits_numeral.
  - rewrite (parse_leading_digit _ _ _ D3). apply readDigits_numeral.
  - rewrite (parse_leading_digit _ _ _ D4). apply readDigits_numeral.
  - rewrite (parse_leading_digit _ _ _ D5). apply readDigits_numeral.
  - rewrite (parse_leading_digit _ _ _ D6). apply readDigits_numeral.
  - rewrite (parse_leading_digit _ _ _ D7). apply readDigits_numeral.
  - rewrite (parse_leading_digit _ _ _ D8). apply readDigits_numeral.
  - rewrite (parse_leading_digit _ _ _ D9). apply readDigits_numeral.
Qed.

Lemma of_uint_acc_value (d : Decimal.uint) (acc : positive) :
  Z.pos (Pos.of_uint_acc d acc) = uintValue (Z.pos acc) d.
Proof.
  revert acc. induction d; intros acc; cbn [Pos.of_uint_acc uintValue];
    [reflexivity | ..]; (rewrite IHd; f_equal; lia).
Qed.

Lemma of_uint_value (d : Decimal.uint) : Z.of_N (Pos.of_uint d) = uintValue 0 d.
Proof.
  induction d; cbn [Pos.of_uint uintValue]; [reflexivity | exact IHd | ..];
    (cbn [Z.of_N]; rewrite of_uint_acc_value; reflexivity).
Qed.

Lemma to_uint_nonnil (n : N) : N.to_uint n <> Decimal.Nil.
Proof.
  destruct n; cbn; [discriminate | apply DecimalPos.Unsigned.to_uint_nonnil].
Qed.

(** Below [10^21] a non-negative integer is printed in plain digits and
    [parseInt] reads it back. *)
Lemma parseInt_number (z : Z) : 0 <= z < 10 ^ 21 -> parseInt (VNum z) = Some z.
Proof.
  intros [Hlo Hhi]. unfold parseInt, toString, numberToString, unsignedToString.
  destruct (Z.ltb_spec z 0) as [|_]; [lia|].
  destruct (Z.ltb_spec z (10 ^ 21)) as [_|]; [|lia].
  unfold digitsOf. rewrite parse_numeral by apply to_uint_nonnil.
  rewrite <- of_uint_value.
  change (Pos.of_uint (N.to_uint (Z.to_N z))) with (N.of_uint (N.to_uint (Z.to_N z))).
  rewrite DecimalN.Unsigned.of_to. now rewrite Z2N.id.
Qed.

Lemma choose_custom (viewType : value) (W : Z) :
  strictEq viewType (VStr "mobile") = false ->
  0 < W < 10 ^ 21 -> W <> 600 ->
  choose viewType (or (VNum W) (VNum 610)) =
  {| viewportWidth := Some W; pdfTitle := "Custom View PDF" |}.
Proof.
  intros Hview HW Hne. unfold choose, or. rewrite Hview. cbn [truthy].
  destruct (Z.eqb_spec W 0) as [|_]; [lia|]. cbn [negb strictEq].
  unfold defaultDesktopWidth.
  destruct (Z.eqb_spec W 600) as [|_]; [contradiction|]. cbn [negb].
  rewrite parseInt_number by lia. reflexivity.
Qed.

(* ----------------------------------------------------------------- *)
(** ** Numbers as the script receives them *)

(** An integer of at most 53 bits reaches the script as written. *)
Lemma jsonNumber_exact (w : Z) : Z.abs w <= 2 ^ 53 -> jsonNumber w = w.
Proof.
  intros Hw. unfold jsonNumber, roundToDouble.
  destruct (Z.leb_spec (Z.log2 (Z.abs w) + 1) 53) as [_|Hbits]; [reflexivity|].
  assert (Hpos : 0 < Z.abs w).
  { destruct (Z.eq_dec (Z.abs w) 0) as [E|]; [|lia].
    rewrite E in Hbits. cbn in Hbits. lia. }
  assert (Hge : 2 ^ 53 <= Z.abs w).
  { apply Z.nlt_ge. intros Hlt. apply Z.log2_lt_pow2 in Hlt; lia. }
  assert (Hcases : w = 2 ^ 53 \/ w = - 2 ^ 53) by lia.
  destruct Hcases as [-> | ->]; vm_compute; reflexivity.
Qed.

(** Beyond that the next integer is lost: [2^53 + 1] arrives as [2^53]. *)
Lemma jsonNumber_rounds : jsonNumber (2 ^ 53 + 1) = 2 ^ 53.
Proof. vm_compute. reflexivity. Qed.

(* ----------------------------------------------------------------- *)
(** ** Markup of any kind *)

Lemma normalise_string (t s : string) :
  normalise t (VStr s) = Some (VStr (finalHtmlContent t s)).
Proof. reflexivity. Qed.

Lemma arrayIndexOf_includes (items : list value) (s : string) :
  match arrayIndexOf items s with Some _ => true | None => false end
  = arrayIncludes items s.
Proof.
  induction items as [|x items IH]; [reflexivity|].
  cbn [arrayIndexOf arrayIncludes existsb].
  destruct (strictEq x (VStr s)); [reflexivity|]. cbn [orb].
  unfold arrayIncludes in IH. rewrite <- IH.
  destruct (arrayIndexOf items s); reflexivity.
Qed.

(** When the statements normalising the markup throw nothing. *)
Lemma normalise_passes (t : string) (v : value) :
  isSome (normalise t v) = passesNormalisation v.
Proof.
  destruct v as [| | | | |items|]; try reflexivity.
  unfold normalise, passesNormalisation. rewrite !arrayIndexOf_includes.
  destruct (arrayIncludes items "<html"); [|reflexivity].
  destruct (arrayIncludes items "<head>"); [|reflexivity].
  destruct (arrayIncludes items metaViewportProbe);
    destruct (arrayIncludes items "</head>");
    destruct (arrayIncludes items "<title>"); reflexivity.
Qed.

Lemma normalise_of_passing (t : string) (v : value) :
  passesNormalisation v = true -> exists final, normalise t v = Some final.
Proof.
  intros H. rewrite <- (normalise_passes t) in H.
  destruct (normalise t v) as [final|]; [now exists final|discriminate].
Qed.

(* ----------------------------------------------------------------- *)
(** ** Control flow of the scripts *)

Local Opaque finalHtmlContent measureContentHeight choose normalise.

(** Follow the script both ways at the statements normalising the markup. *)
Ltac branch_on_markup :=
  match goal with
  | |- context [normalise ?t ?v] =>
      let final := fresh "final" in
      let Hn := fresh "Hn" in
      destruct (normalise t v) as [final|] eqn:Hn; cbn
  end.

(** C5.  With [viewType] 'mobile' the viewport width is the fixed mobile
    width 360, whatever [deviceWidth] holds: the selection ignores it, and
    every [setViewport] call of a mobile request carries width 360. *)
Theorem mobile_viewport_width_is_fixed :
  (forall deviceWidth,
     viewportWidth (choose (VStr "mobile") deviceWidth) = Some mobileWidth)
  /\ (forall env args,
        argv2 env = Some args -> viewType args = VStr "mobile" ->
        forall w h scale mobile,
          In (SetViewport w h scale mobile)
             (events (run (Part000.generateExactPdf env))) ->
          w = Some 360 /\ mobile = true)
  /\ (forall env args,
        argv2 env = Some args -> viewType args = VStr "mobile" ->
        succeeds env AtLaunch = true -> succeeds env AtNewPage = true ->
        In (SetViewport (Some 360) 800 2 true)
           (events (run (Part000.generateExactPdf env)))).
Proof.
  split; [|split].
  - intros deviceWidth. now rewrite choose_mobile.
  - intros env args Hargs Hview w h scale mobile.
    unfold_script. rewrite Hargs; cbn. rewrite Hview; cbn.
    rewrite choose_mobile; cbn.
    branch_on_call env; [|cbn; intuition discriminate].
    branch_on_call env; [|cbn; intuition discriminate].
    branch_on_call env; [|cbn; intuition (discriminate || congruence)].
    branch_on_markup; [|intuition (discriminate || congruence)].
    repeat (branch_on_call env; try (intuition (discriminate || congruence))).
  - intros env args Hargs Hview Hlaunch Hpage.
    unfold_script. rewrite Hargs; cbn. rewrite Hview; cbn.
    rewrite choose_mobile; cbn. rewrite Hlaunch; cbn. rewrite Hpage; cbn.
    branch_on_call env; [|cbn; tauto].
    branch_on_markup; [|tauto].
    repeat (branch_on_call env; try tauto).
Qed.

Lemma mobile_viewport_width_is_fixed_witness :
  In (SetViewport (Some 360) 800 2 true)
     (events (run (Part000.generateExactPdf
                     (Samples.helloEnvironment (VNum 1024) (VStr "mobile"))))).
Proof.
  apply (proj2 (proj2 mobile_viewport_width_is_fixed)
           (Samples.helloEnvironment (VNum 1024) (VStr "mobile"))
           (Samples.helloArguments (VNum 1024) (VStr "mobile")));
    reflexivity.
Defined.

(** How every run of [generateExactPdf] on a parsed argument begins: the
    first viewport is the one selected on the fields defaulted with
    'desktop' and 610, and the markup loaded next is the normalised one,
    with the title of that selection. *)
Lemma generateExactPdf_begins (env : environment) (args : arguments) :
  argv2 env = Some args ->
  succeeds env AtLaunch = true -> succeeds env AtNewPage = true ->
  exists rest,
    events (run (Part000.generateExactPdf env)) =
      Launch :: NewPage
      :: SetViewport
           (viewportWidth (choose (or (viewType args) (VStr "desktop"))
                                  (or (deviceWidth args) (VNum 610))))
           800 2 (strictEq (or (viewType args) (VStr "desktop")) (VStr "mobile"))
      :: rest
    /\ (forall final,
          normalise (pdfTitle (choose (or (viewType args) (VStr "desktop"))
                                      (or (deviceWidth args) (VNum 610))))
                    (htmlContent args) = Some final ->
          succeeds env AtInitialViewport = true ->
          exists rest', rest = SetContent final :: rest').
Proof.
  intros Hargs Hlaunch Hpage.
  unfold_script. rewrite Hargs; cbn. rewrite Hlaunch; cbn. rewrite Hpage; cbn.
  destruct (succeeds env AtInitialViewport) eqn:Hview; cbn;
    [|eexists; split; [reflexivity|intros final _ N; discriminate N]].
  branch_on_markup;
    [|eexists; split; [reflexivity|intros final' N _; discriminate N]].
  repeat (branch_on_call env);
    (eexists; split; [reflexivity|]; intros final' N _; injection N as <-;
     eexists; reflexivity).
Qed.

(** C10.  The script defaults [deviceWidth] to 610 and [viewType] to
    'desktop' before it selects the viewport: every run on a parsed
    argument sets the viewport selected on the fields so defaulted, and
    loads the markup with the title of that selection.  A request with
    [viewType] absent or 'desktop' and no [deviceWidth] therefore gets a
    viewport 610 wide and the title of the custom branch; the desktop
    branch (width 600, title 'Desktop View PDF') is selected only when
    [deviceWidth] is the number 600, and the string "600" selects the
    custom branch. *)
Theorem default_width_selects_custom_branch :
  (forall env args,
     argv2 env = Some args ->
     succeeds env AtLaunch = true -> succeeds env AtNewPage = true ->
     exists rest,
       events (run (Part000.generateExactPdf env)) =
         Launch :: NewPage
         :: SetViewport
              (viewportWidth (choose (or (viewType args) (VStr "desktop"))
                                     (or (deviceWidth args) (VNum 610))))
              800 2 (strictEq (or (viewType args) (VStr "desktop")) (VStr "mobile"))
         :: rest
       /\ (forall html,
             htmlContent args = VStr html -> succeeds env AtInitialViewport = true ->
             exists rest',
               rest = SetContent
                        (VStr (finalHtmlContent
                                 (pdfTitle (choose (or (viewType args) (VStr "desktop"))
                                                   (or (deviceWidth args) (VNum 610))))
                                 html))
                      :: rest'))
  /\ (forall env args html,
        argv2 env = Some args ->
        viewType args = VUndefined \/ viewType args = VStr "desktop" ->
        deviceWidth args = VUndefined -> htmlContent args = VStr html ->
        succeeds env AtLaunch = true -> succeeds env AtNewPage = true ->
        succeeds env AtInitialViewport = true ->
        exists rest,
          events (run (Part000.generateExactPdf env)) =
            Launch :: NewPage :: SetViewport (Some 610) 800 2 false
            :: SetContent (VStr (finalHtmlContent "Custom View PDF" html)) :: rest)
  /\ (forall viewType, viewType = VUndefined \/ viewType = VStr "desktop" ->
        choose (or viewType (VStr "desktop")) (or VUndefined (VNum 610)) =
        {| viewportWidth := Some 610; pdfTitle := "Custom View PDF" |})
  /\ (forall viewType deviceWidth,
        pdfTitle (choose (or viewType (VStr "desktop")) (or deviceWidth (VNum 610)))
          = "Desktop View PDF" ->
        deviceWidth = VNum 600
        /\ choose (or viewType (VStr "desktop")) (or deviceWidth (VNum 610)) =
           {| viewportWidth := Some 600; pdfTitle := "Desktop View PDF" |})
  /\ (forall viewType, viewType = VUndefined \/ viewType = VStr "desktop" ->
        choose (or viewType (VStr "desktop")) (or (VNum 600) (VNum 610)) =
        {| viewportWidth := Some 600; pdfTitle := "Desktop View PDF" |}
        /\ choose (or viewType (VStr "desktop")) (or (VStr "600") (VNum 610)) =
           {| viewportWidth := Some 600; pdfTitle := "Custom View PDF" |}).
Proof.
  split; [|split; [|exact choose_after_defaults]].
  - intros env args Hargs Hlaunch Hpage.
    destruct (generateExactPdf_begins env args Hargs Hlaunch Hpage)
      as (rest & Hevents & Hcontent).
    exists rest. split; [exact Hevents|].
    intros html Hhtml Hview. apply Hcontent; [|exact Hview].
    rewrite Hhtml. apply normalise_string.
  - intros env args html Hargs Hview Hwidth Hhtml Hlaunch Hpage Hviewport.
    destruct (generateExactPdf_begins env args Hargs Hlaunch Hpage)
      as (rest & Hevents & Hcontent).
    rewrite Hwidth in Hevents, Hcontent.
    rewrite (proj1 choose_after_defaults _ Hview) in Hevents, Hcontent.
    cbn [viewportWidth pdfTitle] in Hevents, Hcontent.
    assert (Hmobile : strictEq (or (viewType args) (VStr "desktop")) (VStr "mobile")
                      = false)
      by (destruct Hview as [-> | ->]; reflexivity).
    rewrite Hmobile in Hevents.
    destruct (Hcontent (VStr (finalHtmlContent "Custom View PDF" html)))
      as (rest' & ->); [rewrite Hhtml; apply normalise_string | exact Hviewport |].
    exists rest'. exact Hevents.
Qed.

Lemma default_width_selects_custom_branch_witness :
  exists rest,
    events (run (Part000.generateExactPdf
                   (Samples.helloEnvironment VUndefined VUndefined))) =
      Launch :: NewPage :: SetViewport (Some 610) 800 2 false
      :: SetContent (VStr (finalHtmlContent "Custom View PDF" "<p>Hello</p>")) :: rest.
Proof.
  apply (proj1 (proj2 default_width_selects_custom_branch)
           (Samples.helloEnvironment VUndefined VUndefined)
           (Samples.helloArguments VUndefined VUndefined) "<p>Hello</p>").
  - reflexivity.
  - left; reflexivity.
  - reflexivity.
  - reflexivity.
  - reflexivity.
  - reflexivity.
  - reflexivity.
Defined.

(** C1 as stated covers every positive width.  The integer [10^21]
    reaches the script unchanged and is printed as [1e+21] by [parseInt],
    which then reads 1: the custom branch is taken and the width asked of
    [page.pdf] is [1/96] inch, not [10^21/96]. *)
Lemma huge_width_is_not_requested :
  ~ (forall env args W,
       argv2 env = Some args -> passesNormalisation (htmlContent args) = true ->
       strictEq (or (viewType args) (VStr "desktop")) (VStr "mobile") = false ->
       deviceWidth args = VNum (jsonNumber W) -> 0 < W -> W <> 600 ->
       (forall at_, succeeds env at_ = true) ->
       requestsPage (run (Part000.generateExactPdf env)) W
         (measureContentHeight (rendered env))).
Proof.
  intros H.
  specialize (H (Samples.helloEnvironment (VNum (10 ^ 21)) VUndefined)
                (Samples.helloArguments (VNum (10 ^ 21)) VUndefined)
                (10 ^ 21)
                eq_refl eq_refl eq_refl).
  destruct H as (o & w & h & Hcall & Hw & _ & _ & Hwidth & _).
  - vm_compute. reflexivity.
  - reflexivity.
  - discriminate.
  - reflexivity.
  - vm_compute in Hcall. injection Hcall as <-.
    cbn in Hw. injection Hw as <-.
    vm_compute in Hwidth. discriminate.
Qed.

(** The same happens to an integer that [JSON.parse] rounds: [2^53 + 1]
    reaches the script as [2^53], and the width asked for is [2^53 / 96]
    inches. *)
Lemma rounded_width_is_not_requested :
  exists o,
    pdfCall (events (run (Part000.generateExactPdf
                            (Samples.helloEnvironment
                               (VNum (jsonNumber (2 ^ 53 + 1))) VUndefined))))
    = Some o
    /\ width o = Some (Inches (Some (pxToInches (2 ^ 53)))).
Proof. eexists. split; vm_compute; reflexivity. Qed.

(** C1 (amended).  For a request that is not mobile and supplies as width
    a positive integer [W] other than 600 and of at most [2^53] (so that it
    reaches the script as written), the custom branch is taken and, when
    the statements normalising the markup throw nothing and the browser
    calls succeed, the script asks [page.pdf] for a width of [W / 96]
    inches and a height of the measured content height divided by 96, in
    inches, with [preferCSSPageSize] set. *)
Theorem custom_width_page_size (env : environment) (args : arguments) (W : Z) :
  argv2 env = Some args -> passesNormalisation (htmlContent args) = true ->
  strictEq (or (viewType args) (VStr "desktop")) (VStr "mobile") = false ->
  deviceWidth args = VNum (jsonNumber W) -> 0 < W <= 2 ^ 53 -> W <> 600 ->
  (forall at_, at_ <> AtImageWait -> succeeds env at_ = true) ->
  choose (or (viewType args) (VStr "desktop")) (or (deviceWidth args) (VNum 610))
  = {| viewportWidth := Some W; pdfTitle := "Custom View PDF" |}
  /\ requestsPage (run (Part000.generateExactPdf env)) W
       (measureContentHeight (rendered env)).
Proof.
  intros Hargs Hmarkup Hview Hwidth HW Hne Hok.
  rewrite jsonNumber_exact in Hwidth by lia.
  assert (Hrange : 0 < W < 10 ^ 21) by lia.
  rewrite Hwidth.
  rewrite (choose_custom _ W Hview Hrange Hne).
  split; [reflexivity|].
  destruct (normalise_of_passing "Custom View PDF" _ Hmarkup) as [final Hfinal].
  unfold requestsPage. unfold_script. rewrite Hargs; cbn.
  rewrite Hwidth. rewrite (choose_custom _ W Hview Hrange Hne).
  cbn. rewrite Hfinal. cbn.
  rewrite !(Hok AtLaunch), !(Hok AtNewPage), !(Hok AtInitialViewport),
    !(Hok AtSetContent), !(Hok AtEmulateMediaType) by discriminate. cbn.
  branch_on_call env;
    rewrite !(Hok AtFontsReady), !(Hok AtMeasure), !(Hok AtFinalViewport),
      !(Hok AtPdf) by discriminate; cbn;
    (eexists; exists (pxToInches W);
     exists (pxToInches (measureContentHeight (rendered env)));
     repeat split; reflexivity).
Qed.

Lemma custom_width_page_size_witness :
  requestsPage
    (run (Part000.generateExactPdf (Samples.helloEnvironment (VNum 800) VUndefined)))
    800
    (measureContentHeight (rendered (Samples.helloEnvironment (VNum 800) VUndefined))).
Proof.
  apply (custom_width_page_size
           (Samples.helloEnvironment (VNum 800) VUndefined)
           (Samples.helloArguments (VNum 800) VUndefined) 800).
  - reflexivity.
  - reflexivity.
  - reflexivity.
  - reflexivity.
  - lia.
  - discriminate.
  - intros at_ _. reflexivity.
Defined.

(** C7 as stated puts the font wait before the image wait; on the page of
    [<p>Hello</p>] the image wait is the sixth call and the font wait the
    seventh. *)
Lemma fonts_are_not_awaited_before_images :
  ~ (exists i j,
       position isFontsReady
         (events (run (Part000.generateExactPdf
                         (Samples.helloEnvironment VUndefined VUndefined)))) = Some i
       /\ position isWaitForImages
            (events (run (Part000.generateExactPdf
                            (Samples.helloEnvironment VUndefined VUndefined)))) = Some j
       /\ (i < j)%nat).
Proof.
  intros (i & j & Hi & Hj & Hlt).
  vm_compute in Hi. vm_compute in Hj.
  injection Hi as <-. injection Hj as <-. lia.
Qed.

(** C7 (amended).  Whenever the measurement is reached, the calls before it
    were, in this order: launch, new page, initial viewport, [setContent]
    of the normalised markup with the network-idle condition, the media
    type, the image wait bounded by ten seconds (followed by its log line
    when it timed out), the font wait, the 500 ms pause, and then the
    measurement.  The measurement is reached as soon as the calls before it
    succeed, the image wait aside. *)
Theorem waits_precede_measurement_in_source_order :
  (forall env,
     In MeasureContent (events (run (Part000.generateExactPdf env))) ->
     exists args w mobile html log rest,
       argv2 env = Some args
       /\ normalise (pdfTitle (choose (or (viewType args) (VStr "desktop"))
                                      (or (deviceWidth args) (VNum 610))))
                    (htmlContent args) = Some html
       /\ events (run (Part000.generateExactPdf env)) =
            ([Launch; NewPage; SetViewport w 800 2 mobile; SetContent html;
              EmulateMediaType "screen"; WaitForImages 10000]
             ++ log ++ [FontsReady; Sleep 500; MeasureContent] ++ rest)%list
       /\ (log = [] \/ log = [ConsoleLog ImagesNotLoaded]))
  /\ (forall env args html,
        argv2 env = Some args -> htmlContent args = VStr html ->
        succeeds env AtLaunch = true -> succeeds env AtNewPage = true ->
        succeeds env AtInitialViewport = true -> succeeds env AtSetContent = true ->
        succeeds env AtEmulateMediaType = true -> succeeds env AtFontsReady = true ->
        In MeasureContent (events (run (Part000.generateExactPdf env)))).
Proof.
  split.
  - intros env. unfold_script.
    destruct (argv2 env) as [args|]; cbn; [|tauto].
    branch_on_call env; [|cbn; intuition discriminate].
    branch_on_call env; [|cbn; intuition discriminate].
    branch_on_call env; [|cbn; intuition discriminate].
    branch_on_markup; [|intuition discriminate].
    repeat (branch_on_call env);
      first
        [ intros _; exists args; do 3 eexists; exists []; eexists;
          split; [reflexivity|]; split; [exact Hn|];
          split; [reflexivity|left; reflexivity]
        | intros _; exists args; do 3 eexists;
          exists [ConsoleLog ImagesNotLoaded]; eexists;
          split; [reflexivity|]; split; [exact Hn|];
          split; [reflexivity|right; reflexivity]
        | cbn; intuition discriminate ].
  - intros env args html Hargs Hhtml H1 H2 H3 H4 H5 H6.
    unfold_script. rewrite Hargs; cbn. rewrite H1; cbn. rewrite H2; cbn.
    rewrite H3; cbn. rewrite Hhtml, normalise_string; cbn.
    rewrite H4; cbn. rewrite H5; cbn.
    branch_on_call env; rewrite H6; cbn;
      repeat (branch_on_call env); cbn; tauto.
Qed.

Lemma waits_precede_measurement_in_source_order_witness :
  In MeasureContent
     (events (run (Part000.generateExactPdf
                     (Samples.helloEnvironment VUndefined VUndefined)))).
Proof.
  apply (proj2 waits_precede_measurement_in_source_order
           (Samples.helloEnvironment VUndefined VUndefined)
           (Samples.helloArguments VUndefined VUndefined) "<p>Hello</p>");
    reflexivity.
Defined.

(** C8.  When the image wait times out the script does not abort: the
    rejection is caught, a line is written with [console.log], the font
    wait, the pause and the measurement follow, and the script ends with
    exit code 0.  It is the only failure that is survived: an exit code 0
    means that the argument parsed, that the statements normalising the
    markup threw nothing, and that every other call of the script
    succeeded. *)
Theorem image_wait_timeout_is_not_fatal :
  (forall env args html,
     argv2 env = Some args -> htmlContent args = VStr html ->
     succeeds env AtImageWait = false ->
     (forall at_, at_ <> AtImageWait -> succeeds env at_ = true) ->
     outcome (run (Part000.generateExactPdf env)) = Exit 0
     /\ position isConsoleError (events (run (Part000.generateExactPdf env))) = None
     /\ exists before after,
          events (run (Part000.generateExactPdf env)) =
            (before
             ++ [WaitForImages 10000; ConsoleLog ImagesNotLoaded; FontsReady;
                 Sleep 500; MeasureContent]
             ++ after)%list)
  /\ (forall env,
        outcome (run (Part000.generateExactPdf env)) = Exit 0 ->
        (exists args final,
           argv2 env = Some args
           /\ normalise (pdfTitle (choose (or (viewType args) (VStr "desktop"))
                                          (or (deviceWidth args) (VNum 610))))
                        (htmlContent args) = Some final
           /\ In (SetContent final) (events (run (Part000.generateExactPdf env))))
        /\ forall at_,
             at_ <> AtImageWait -> at_ <> AtStyleTag -> at_ <> AtClose ->
             succeeds env at_ = true).
Proof.
  split.
  - intros env args html Hargs Hhtml Himg Hrest.
    assert (Hok : forall at_, succeeds env at_ =
                    match at_ with AtImageWait => false | _ => true end).
    { intros at_. destruct at_; try (apply Hrest; discriminate). exact Himg. }
    unfold_script. rewrite Hargs; cbn. rewrite Hhtml, normalise_string.
    rewrite !Hok; cbn.
    split; [reflexivity|]. split; [reflexivity|].
    eexists [_; _; _; _; _]. eexists. reflexivity.
  - intros env. unfold_script.
    destruct (argv2 env) as [args|]; cbn; [|discriminate].
    branch_on_call env; [|discriminate].
    branch_on_call env; [|discriminate].
    branch_on_call env; [|discriminate].
    branch_on_markup; [|discriminate].
    branch_on_call env; [|discriminate].
    branch_on_call env; [|discriminate].
    branch_on_call env;
      (branch_on_call env; [|discriminate]);
      (branch_on_call env; [|discriminate]);
      (branch_on_call env; [|discriminate]);
      (branch_on_call env; [|discriminate]);
      intros _;
      (split;
         [exists args, final; split; [reflexivity|]; split; [exact Hn|];
          do 3 right; left; reflexivity|]);
      intros at_ N1 N2 N3; destruct at_; congruence.
Qed.

Lemma image_wait_timeout_is_not_fatal_witness :
  outcome (run (Part000.generateExactPdf Samples.slowImagesEnvironment)) = Exit 0.
Proof.
  apply (proj1 image_wait_timeout_is_not_fatal Samples.slowImagesEnvironment
           (Samples.helloArguments VUndefined VUndefined) "<p>Hello</p>").
  - reflexivity.
  - reflexivity.
  - reflexivity.
  - intros at_ N. destruct at_; try reflexivity. now elim N.
Defined.

(** C9 does not hold for [generateExactPdf]: there the argument is parsed
    before the [try] block: a malformed argument rejects the function
    without any handler of the script running, so nothing is written with
    [console.error] and [process.exit(1)] is not called.  [generatePdf] of
    testpdf.js parses inside its [try] and does what the claim says. *)
Theorem malformed_argument_bypasses_the_handler :
  run (Part000.generateExactPdf Samples.malformedEnvironment)
    = (Throw SyntaxError, initial)
  /\ run (TestPdf.generatePdf Samples.malformedEnvironment)
       = (Exit 1,
          {| trace := [ConsoleError (ErrorGeneratingPdf SyntaxError); ProcessExit 1];
             browser := false |}).
Proof. split; reflexivity. Qed.

Lemma malformed_argument_rejects (env : environment) :
  argv2 env = None ->
  run (Part000.generateExactPdf env) = (Throw SyntaxError, initial).
Proof. intros H. unfold_script. now rewrite H. Qed.

Lemma malformed_argument_is_caught_in_testpdf (env : environment) :
  argv2 env = None ->
  run (TestPdf.generatePdf env)
  = (Exit 1,
     {| trace := [ConsoleError (ErrorGeneratingPdf SyntaxError); ProcessExit 1];
        browser := false |}).
Proof. intros H. unfold_script. now rewrite H. Qed.

(** C3 does not hold for the scripts.  [process.exit] is called inside the [try]
    block and inside the [catch] block, so the process is gone before the
    [finally] block could close the browser: on the successful run and on
    the run whose [page.pdf] call rejects the browser has been launched and
    [browser.close()] is never called.  The third script of part_001 has
    no [try] at all and closes the browser on the successful run only. *)
Theorem browser_is_not_closed :
  (outcome (run (Part000.generateExactPdf
                   (Samples.helloEnvironment VUndefined VUndefined))) = Exit 0
   /\ browser (snd (run (Part000.generateExactPdf
                           (Samples.helloEnvironment VUndefined VUndefined)))) = true
   /\ position isClose
        (events (run (Part000.generateExactPdf
                        (Samples.helloEnvironment VUndefined VUndefined)))) = None)
  /\ (outcome (run (Part000.generateExactPdf Samples.pdfFailsEnvironment)) = Exit 1
      /\ browser (snd (run (Part000.generateExactPdf Samples.pdfFailsEnvironment)))
         = true
      /\ position isClose
           (events (run (Part000.generateExactPdf Samples.pdfFailsEnvironment)))
         = None)
  /\ (outcome (run (Part001.generateExactPdf Samples.pdfFailsEnvironment))
      = Throw (Rejected AtPdf)
      /\ browser (snd (run (Part001.generateExactPdf Samples.pdfFailsEnvironment)))
         = true
      /\ position isClose
           (events (run (Part001.generateExactPdf Samples.pdfFailsEnvironment)))
         = None).
Proof. repeat split; vm_compute; reflexivity. Qed.

(** [generatePdf] of testpdf.js has one width, 375 pixels, for every
    request. *)
Lemma testpdf_viewport_width_is_fixed (env : environment) :
  forall w h scale mobile,
    In (SetViewport w h scale mobile) (events (run (TestPdf.generatePdf env))) ->
    w = Some 375.
Proof.
  intros w h scale mobile. unfold_script.
  destruct (argv2 env) as [args|]; cbn; [|intuition discriminate].
  branch_on_call env; [|cbn; intuition discriminate].
  branch_on_call env; [|cbn; intuition discriminate].
  repeat (branch_on_call env; try (intuition (discriminate || congruence))).
Qed.

(** On no run of [generateExactPdf] is [browser.close()] called. *)
Lemma generateExactPdf_never_closes (env : environment) :
  position isClose (events (run (Part000.generateExactPdf env))) = None.
Proof.
  unfold_script.
  destruct (argv2 env) as [args|]; cbn; [|reflexivity].
  branch_on_call env; [|reflexivity].
  branch_on_call env; [|reflexivity].
  branch_on_call env; [|reflexivity].
  branch_on_markup; [|reflexivity].
  repeat (branch_on_call env; try reflexivity).
Qed.

End Properties.

(* ================================================================= *)
(** * Further properties of the normalisation and of the measurement *)

Module Coverage.
Import Js JsString Dom Measure Markup Viewport Effects Ops Host Observe Notions Properties.

(* ----------------------------------------------------------------- *)
(** ** Markup normalisation *)

Lemma includes_false_indexOf (s p : string) :
  includes s p = false -> indexOf s p = None.
Proof. unfold includes. destruct (indexOf s p); [discriminate|reflexivity]. Qed.

(** The normalised form of a fragment, written out. *)
Lemma fragment_closed_form (t m : string) :
  In t pdfTitles -> includes m "<html" = false ->
  finalHtmlContent t m =
    "<!DOCTYPE html><html><head>"
    ++ (if includes m "<title>" then ""
        else "<title>" ++ replace t " PDF" "" ++ "</title>")
    ++ (if includes m metaViewportProbe then "" else metaViewportTag)
    ++ "</head><body>" ++ m ++ "</body></html>".
Proof.
  intros Ht Hhtml.
  unfold finalHtmlContent. rewrite (wrapFragment_fragment m Hhtml).
  unfold addHead.
  change (includes ("<!DOCTYPE html><html><head></head><body>"
                    ++ m ++ "</body></html>") "<head>") with true.
  cbn [negb]. unfold addMetaViewport.
  rewrite (includes_in_fragment _ m metaViewportProbe) by fragment_side.
  unfold pdfTitles in Ht. cbn [In] in Ht.
  destruct (includes m metaViewportProbe) eqn:Em; cbn [negb];
    unfold addTitle;
    rewrite (includes_in_fragment _ m "<title>") by fragment_side;
    (destruct (includes m "<title>") eqn:Et; cbn [negb]);
    destruct Ht as [<- | [<- | [<- | []]]]; reflexivity.
Qed.

(** X1.  A fragment (markup without [<html]) is placed unchanged between
    [<body>] and [</body></html>] of a document shell; the head of the shell
    holds the title derived from the device kind unless the fragment has a
    [<title>] of its own, then the viewport meta tag unless the fragment
    has one, and nothing else. *)
Theorem fragment_is_wrapped_verbatim (pdfTitle markup : string) :
  In pdfTitle pdfTitles -> includes markup "<html" = false ->
  finalHtmlContent pdfTitle markup =
    "<!DOCTYPE html><html><head>"
    ++ (if includes markup "<title>" then ""
        else "<title>" ++ replace pdfTitle " PDF" "" ++ "</title>")
    ++ (if includes markup metaViewportProbe then "" else metaViewportTag)
    ++ "</head><body>" ++ markup ++ "</body></html>".
Proof. exact (fragment_closed_form pdfTitle markup). Qed.

Lemma fragment_is_wrapped_verbatim_witness :
  finalHtmlContent "Mobile View PDF" "<p>Hello</p>" =
    "<!DOCTYPE html><html><head>"
    ++ "<title>" ++ "Mobile View" ++ "</title>"
    ++ metaViewportTag
    ++ "</head><body>" ++ "<p>Hello</p>" ++ "</body></html>".
Proof.
  apply (fragment_is_wrapped_verbatim "Mobile View PDF" "<p>Hello</p>").
  - left; reflexivity.
  - reflexivity.
Defined.

(** Decide one of the four [includes] tests on a wrapped fragment: the text
    is found in the opening of the shell, or it is in the fragment. *)
Ltac decide_test m :=
  match goal with
  | |- context [negb (includes ?X ?p)] =>
      first [ change (includes X p) with true
            | rewrite (includes_in_fragment X m p) by fragment_side ]
  end.

(** X2.  Normalising a normalised fragment changes nothing. *)
Theorem normalising_twice_changes_nothing (pdfTitle markup : string) :
  In pdfTitle pdfTitles -> includes markup "<html" = false ->
  finalHtmlContent pdfTitle (finalHtmlContent pdfTitle markup)
  = finalHtmlContent pdfTitle markup.
Proof.
  intros Ht Hhtml. rewrite (fragment_closed_form pdfTitle markup Ht Hhtml).
  unfold pdfTitles in Ht. cbn [In] in Ht.
  destruct (includes markup metaViewportProbe) eqn:Em;
    destruct (includes markup "<title>") eqn:Et;
    destruct Ht as [<- | [<- | [<- | []]]];
    unfold finalHtmlContent;
    unfold wrapFragment; decide_test markup; cbn [negb];
    unfold addHead; decide_test markup; cbn [negb];
    unfold addMetaViewport; decide_test markup; rewrite ?Em; cbn [negb];
    unfold addTitle; decide_test markup; rewrite ?Et; cbn [negb];
    reflexivity.
Qed.

Lemma normalising_twice_changes_nothing_witness :
  finalHtmlContent "Custom View PDF"
    (finalHtmlContent "Custom View PDF" "<title>Mine</title><p>Hello</p>")
  = finalHtmlContent "Custom View PDF" "<title>Mine</title><p>Hello</p>".
Proof.
  apply (normalising_twice_changes_nothing "Custom View PDF"
           "<title>Mine</title><p>Hello</p>").
  - right; left; reflexivity.
  - reflexivity.
Defined.

(** X3.  The normalised fragment has as many [<title>] tags as the
    fragment, but at least one: a title is added only when there is none,
    and it is the device kind's label without [" PDF"]. *)
Theorem fragment_title_is_not_duplicated (pdfTitle markup : string) :
  In pdfTitle pdfTitles -> includes markup "<html" = false ->
  count (finalHtmlContent pdfTitle markup) "<title>"
    = Nat.max 1 (count markup "<title>")
  /\ (includes markup "<title>" = false ->
      includes (finalHtmlContent pdfTitle markup)
        ("<title>" ++ replace pdfTitle " PDF" "" ++ "</title>") = true).
Proof.
  intros Ht Hhtml. rewrite (fragment_closed_form pdfTitle markup Ht Hhtml).
  pose proof (includes_count markup "<title>" ltac:(discriminate)) as Htitle.
  unfold pdfTitles in Ht. cbn [In] in Ht.
  destruct (includes markup "<title>") eqn:Et;
    symmetry in Htitle;
    (apply Nat.ltb_lt in Htitle || apply Nat.ltb_ge in Htitle);
    destruct (includes markup metaViewportProbe);
    destruct Ht as [<- | [<- | [<- | []]]];
    (split; [|first [discriminate | intros _; reflexivity]]);
    first
      [ rewrite (count_in_fragment _ markup "<title>" 0) by fragment_side; lia
      | rewrite (count_in_fragment _ markup "<title>" 1) by fragment_side; lia ].
Qed.

Lemma fragment_title_is_not_duplicated_witness :
  count (finalHtmlContent "Desktop View PDF" "<title>Mine</title><p>Hi</p>") "<title>"
  = Nat.max 1 (count "<title>Mine</title><p>Hi</p>" "<title>").
Proof.
  apply (fragment_title_is_not_duplicated "Desktop View PDF"
           "<title>Mine</title><p>Hi</p>").
  - right; right; left; reflexivity.
  - reflexivity.
Defined.

(** X4.  A document that has [<html] goes through unchanged in two cases:
    when it already holds [<head>], a viewport meta tag and [<title>]; and
    when none of the texts searched for is found, [<head>], [</head>] and
    [<body>], as with a body tag that carries attributes.  In the second
    case no head, viewport meta tag or title is added. *)
Theorem document_passes_through_unchanged (pdfTitle markup : string) :
  includes markup "<html" = true ->
  (includes markup "<head>" = true
   /\ includes markup metaViewportProbe = true
   /\ includes markup "<title>" = true)
  \/ (includes markup "<head>" = false
      /\ includes markup "</head>" = false
      /\ includes markup "<body>" = false) ->
  finalHtmlContent pdfTitle markup = markup.
Proof.
  intros Hhtml [(Hhead & Hmeta & Htitle) | (Hhead & Hend & Hbody)];
    unfold finalHtmlContent, wrapFragment; rewrite Hhtml; cbn [negb];
    unfold addHead; rewrite Hhead; cbn [negb].
  - unfold addMetaViewport. rewrite Hmeta. cbn [negb].
    unfold addTitle. now rewrite Htitle.
  - unfold replace. rewrite (includes_false_indexOf _ _ Hbody).
    unfold addMetaViewport. rewrite (includes_false_indexOf _ _ Hend).
    assert (Hsame : (if negb (includes markup metaViewportProbe)
                     then markup else markup) = markup)
      by (destruct (includes markup metaViewportProbe); reflexivity).
    rewrite Hsame. unfold addTitle.
    rewrite (includes_false_indexOf _ _ Hhead).
    destruct (includes markup "<title>"); reflexivity.
Qed.

Lemma document_passes_through_unchanged_witness :
  finalHtmlContent "Custom View PDF" "<html><body class=x><p>Hi</p></body></html>"
  = "<html><body class=x><p>Hi</p></body></html>".
Proof.
  apply (document_passes_through_unchanged "Custom View PDF"
           "<html><body class=x><p>Hi</p></body></html>").
  - reflexivity.
  - right. repeat split; reflexivity.
Defined.

(* ----------------------------------------------------------------- *)
(** ** The content measurement *)

(** Either the scan changes nothing, or it records an element of the list
    that qualifies, lies below the starting value and gives the new one. *)
Lemma scan_records (els : list element) (acc : scanState) :
  fold_left scanStep els acc = acc
  \/ exists l,
       lastVisibleElement (fold_left scanStep els acc) = Some l
       /\ In l els /\ qualifies l = true
       /\ maxBottom (fold_left scanStep els acc) = bottom (boundingClientRect l)
       /\ (maxBottom acc < bottom (boundingClientRect l))%Q.
Proof.
  revert acc. induction els as [|x els IH]; intros acc; [now left|].
  cbn [fold_left].
  destruct (scanStep_cases acc x) as [[E _] | [E [Hq Hlt]]]; rewrite E.
  - destruct (IH acc) as [Hsame | (l & Hl & Hin & Hql & Hmax & Hlow)];
      [now left|].
    right. exists l. repeat split; try assumption. now right.
  - right.
    destruct (IH {| maxBottom := bottom (boundingClientRect x);
                    lastVisibleElement := Some x |})
      as [Hsame | (l & Hl & Hin & Hql & Hmax & Hlow)].
    + exists x. rewrite Hsame. cbn [lastVisibleElement maxBottom].
      repeat split; try assumption; try reflexivity. now left.
    + exists l. repeat split; try assumption; [now right|].
      cbn [maxBottom] in Hlow. eapply Qlt_trans; eassumption.
Qed.

(** X5.  What the scan computes.  The value it tracks bounds the bottom
    edge of every element that is not hidden and has visible content.  When
    an element is recorded, it is such an element of the page, its bottom
    edge is that value and lies below the top of the page; when none is
    recorded, the value is 0 and no such element reaches below the top. *)
Theorem scan_finds_the_lowest_edge (els : list element) :
  (forall el, In el els -> qualifies el = true ->
     (bottom (boundingClientRect el) <= maxBottom (scan els))%Q)
  /\ (forall l, lastVisibleElement (scan els) = Some l ->
        In l els /\ qualifies l = true
        /\ maxBottom (scan els) = bottom (boundingClientRect l)
        /\ (0 < bottom (boundingClientRect l))%Q)
  /\ (lastVisibleElement (scan els) = None ->
        maxBottom (scan els) = 0%Q
        /\ forall el, In el els -> qualifies el = true ->
             (bottom (boundingClientRect el) <= 0)%Q).
Proof.
  unfold scan. split; [|split].
  - intros el Hin Hq. now apply scan_covers.
  - intros l Hl.
    destruct (scan_records els scanStart) as [Hsame | (l' & Hl' & Hin & Hq & Hmax & Hlow)].
    + rewrite Hsame in Hl. discriminate.
    + rewrite Hl in Hl'. injection Hl' as <-. repeat split; assumption.
  - intros Hnone. apply scan_nothing_found in Hnone.
    split; [now rewrite Hnone|].
    intros el Hin Hq. pose proof (scan_covers els scanStart el Hin Hq) as Hle.
    now rewrite Hnone in Hle.
Qed.

Lemma scan_finds_the_lowest_edge_witness :
  (bottom (boundingClientRect (body Samples.marginDocument))
   <= maxBottom (scan (querySelectorAll Samples.marginDocument)))%Q.
Proof.
  apply (proj1 (scan_finds_the_lowest_edge (querySelectorAll Samples.marginDocument))).
  - cbn. right; right; right; right. left. reflexivity.
  - reflexivity.
Defined.

(** X6.  Visible content is not cut off: when the element that reaches
    lowest has no negative bottom margin, the measured height is at least
    the bottom edge of every element that is not hidden and has visible
    content. *)
Theorem measured_height_covers_visible_content (d : document) (l el : element) :
  lastVisibleElement (scan (querySelectorAll d)) = Some l ->
  0 <= marginBottomPx l ->
  In el (querySelectorAll d) -> qualifies el = true ->
  (bottom (boundingClientRect el) <= inject_Z (measureContentHeight d))%Q.
Proof.
  intros Hl Hmargin Hin Hq. unfold measureContentHeight. rewrite Hl.
  eapply Qle_trans; [|apply Qle_ceiling].
  eapply Qle_trans; [apply (scan_covers _ scanStart el Hin Hq)|].
  fold (scan (querySelectorAll d)).
  rewrite <- (Qplus_0_r (maxBottom (scan (querySelectorAll d)))) at 1.
  apply Qplus_le_compat; [apply Qle_refl|].
  change 0%Q with (inject_Z 0). now rewrite <- Zle_Qle.
Qed.

Lemma measured_height_covers_visible_content_witness :
  (bottom (boundingClientRect (htmlElement Samples.helloDocument))
   <= inject_Z (measureContentHeight Samples.helloDocument))%Q.
Proof.
  eapply (measured_height_covers_visible_content Samples.helloDocument).
  - reflexivity.
  - vm_compute. discriminate.
  - cbn. left. reflexivity.
  - reflexivity.
Defined.

Lemma scanStep_skips (acc : scanState) (el : element) :
  qualifies el = false -> scanStep acc el = acc.
Proof.
  unfold qualifies, scanStep. destruct (hidden (computedStyle el)); [reflexivity|].
  cbn [negb andb]. now intros ->.
Qed.

(** X7.  Hidden elements and elements without visible content never
    influence the measurement: the scan of all elements is the scan of
    those that are not hidden and have visible content. *)
Theorem scan_ignores_other_elements (els : list element) :
  scan els = scan (filter qualifies els).
Proof.
  unfold scan. generalize scanStart as acc.
  induction els as [|x els IH]; intros acc; [reflexivity|].
  cbn [fold_left filter]. destruct (qualifies x) eqn:Hq.
  - cbn [fold_left]. apply IH.
  - rewrite (scanStep_skips acc x Hq). apply IH.
Qed.

(* ----------------------------------------------------------------- *)
(** ** Widths given as strings *)

Lemma readDigits_numeral_then (d : Decimal.uint) (acc : Z) (rest : string) :
  readDigits (Some acc) rest = Some acc ->
  (forall acc', readDigits (Some acc') rest = Some acc') ->
  readDigits (Some acc) (NilEmpty.string_of_uint d ++ rest) = Some (uintValue acc d).
Proof.
  intros _ Hrest.
  destruct digitValue_digits as (D0 & D1 & D2 & D3 & D4 & D5 & D6 & D7 & D8 & D9).
  revert acc. induction d; intros acc;
    cbn [NilEmpty.string_of_uint uintValue append]; [apply Hrest | ..].
  - rewrite (readDigits_digit _ _ _ _ D0). apply IHd.
  - rewrite (readDigits_digit _ _ _ _ D1). apply IHd.
  - rewrite (readDigits_digit _ _ _ _ D2). apply IHd.
  - rewrite (readDigits_digit _ _ _ _ D3). apply IHd.
  - rewrite (readDigits_digit _ _ _ _ D4). apply IHd.
  - rewrite (readDigits_digit _ _ _ _ D5). apply IHd.
  - rewrite (readDigits_digit _ _ _ _ D6). apply IHd.
  - rewrite (readDigits_digit _ _ _ _ D7). apply IHd.
  - rewrite (readDigits_digit _ _ _ _ D8). apply IHd.
  - rewrite (readDigits_digit _ _ _ _ D9). apply IHd.
Qed.

Lemma readDigits_stops (rest : string) (acc : Z) :
  endsNumber rest = true -> readDigits (Some acc) rest = Some acc.
Proof.
  destruct rest as [|a rest]; [reflexivity|].
  cbn [endsNumber readDigits]. destruct (digitValue a); [discriminate|reflexivity].
Qed.

Lemma parseInt_digits_then (d : Decimal.uint) (rest : string) :
  d <> Decimal.Nil -> endsNumber rest = true ->
  parseInt (VStr (NilEmpty.string_of_uint d ++ rest)) = Some (uintValue 0 d).
Proof.
  intros Hd Hrest. rewrite parseInt_unfold. cbn [toString].
  destruct digitValue_digits as (D0 & D1 & D2 & D3 & D4 & D5 & D6 & D7 & D8 & D9).
  destruct d; [now elim Hd | ..];
    cbn [NilEmpty.string_of_uint uintValue append].
  - rewrite (parse_leading_digit _ _ _ D0).
    apply readDigits_numeral_then; [|intros acc']; now apply readDigits_stops.
  - rewrite (parse_leading_digit _ _ _ D1).
    apply readDigits_numeral_then; [|intros acc']; now apply readDigits_stops.
  - rewrite (parse_leading_digit _ _ _ D2).
    apply readDigits_numeral_then; [|intros acc']; now apply readDigits_stops.
  - rewrite (parse_leading_digit _ _ _ D3).
    apply readDigits_numeral_then; [|intros acc']; now apply readDigits_stops.
  - rewrite (parse_leading_digit _ _ _ D4).
    apply readDigits_numeral_then; [|intros acc']; now apply readDigits_stops.
  - rewrite (parse_leading_digit _ _ _ D5).
    apply readDigits_numeral_then; [|intros acc']; now apply readDigits_stops.
  - rewrite (parse_leading_digit _ _ _ D6).
    apply readDigits_numeral_then; [|intros acc']; now apply readDigits_stops.
  - rewrite (parse_leading_digit _ _ _ D7).
    apply readDigits_numeral_then; [|intros acc']; now apply readDigits_stops.
  - rewrite (parse_leading_digit _ _ _ D8).
    apply readDigits_numeral_then; [|intros acc']; now apply readDigits_stops.
  - rewrite (parse_leading_digit _ _ _ D9).
    apply readDigits_numeral_then; [|intros acc']; now apply readDigits_stops.
Qed.

(** X8.  A [deviceWidth] given as a string is read by its leading decimal
    digits: a string that starts with the digits of [n] (an integer that a
    JavaScript number holds exactly) and goes on with anything but a digit
    (nothing, or a unit such as [px]) selects the custom branch with a
    viewport [n] pixels wide, also for [n = 600]. *)
Theorem string_width_is_read_by_its_digits (viewType : value) (n : Z) (rest : string) :
  strictEq viewType (VStr "mobile") = false ->
  0 <= n <= 2 ^ 53 -> endsNumber rest = true ->
  choose viewType (or (VStr (digitsOf n ++ rest)) (VNum 610))
  = {| viewportWidth := Some n; pdfTitle := "Custom View PDF" |}.
Proof.
  intros Hview [Hn _] Hrest. unfold digitsOf.
  pose proof (to_uint_nonnil (Z.to_N n)) as Hd.
  assert (Htruthy : truthy (VStr (NilEmpty.string_of_uint (N.to_uint (Z.to_N n)) ++ rest))
                    = true).
  { destruct (N.to_uint (Z.to_N n)); [now elim Hd | ..]; reflexivity. }
  unfold or. rewrite Htruthy. unfold choose. rewrite Hview. cbn [strictEq negb].
  rewrite (parseInt_digits_then _ rest Hd Hrest).
  rewrite <- of_uint_value.
  change (Pos.of_uint (N.to_uint (Z.to_N n))) with (N.of_uint (N.to_uint (Z.to_N n))).
  rewrite DecimalN.Unsigned.of_to. now rewrite Z2N.id.
Qed.

Lemma string_width_is_read_by_its_digits_witness :
  choose (VStr "desktop") (or (VStr "800px") (VNum 610))
  = {| viewportWidth := Some 800; pdfTitle := "Custom View PDF" |}.
Proof.
  apply (string_width_is_read_by_its_digits (VStr "desktop") 800 "px").
  - reflexivity.
  - lia.
  - reflexivity.
Defined.

(* ----------------------------------------------------------------- *)
(** ** How the scripts end *)

Lemma normalise_without_includes (t : string) (v : value) :
  hasIncludes v = false -> normalise t v = None.
Proof. destruct v; try discriminate; reflexivity. Qed.

Lemma normalise_array_fragment (t : string) (items : list value) :
  arrayIncludes items "<html" = false ->
  normalise t (VArr items)
  = Some (VStr (addTitle t (addMetaViewport (addHead
      ("<!DOCTYPE html><html><head></head><body>"
       ++ toString (VArr items) ++ "</body></html>"))))).
Proof. intros H. unfold normalise. rewrite H. reflexivity. Qed.

Local Opaque finalHtmlContent measureContentHeight choose normalise.

(** X9.  How [generateExactPdf] of part_000 ends.  It never returns: a
    malformed argument rejects it with the [SyntaxError]; otherwise it ends
    in [process.exit], with code 0 exactly when the statements normalising
    the markup throw nothing and every browser call other than the image
    wait succeeds, and with code 1 in every other case.  The statements
    throw nothing on a string, on an array without the item ['<html'], and
    on an array that holds the items ['<html'], ['<head>'] and ['<title>']
    and either the viewport probe or no item ['</head>']; they throw on
    every other value. *)
Theorem generateExactPdf_exit_status (env : environment) :
  outcome (run (Part000.generateExactPdf env)) =
  match argv2 env with
  | None => Throw SyntaxError
  | Some args =>
      if passesNormalisation (htmlContent args) && everyCall env part000Calls
      then Exit 0 else Exit 1
  end.
Proof.
  unfold_script. unfold everyCall, part000Calls. cbn [forallb].
  destruct (argv2 env) as [args|]; cbn; [|reflexivity].
  branch_on_markup;
    match type of Hn with
    | normalise ?t ?v = _ =>
        let Hp := fresh "Hp" in
        pose proof (normalise_passes t v) as Hp; rewrite Hn in Hp;
        cbn [isSome] in Hp; rewrite <- Hp; cbn [andb]
    end;
    repeat (branch_on_call env; try reflexivity).
Qed.

(** X10.  Markup that is missing, or is [null], a boolean, a number or an
    object, has no method [includes].  This is noticed only after the
    browser has been launched, a page opened and the viewport set: the
    [TypeError] is caught, written with [console.error], and the script
    exits with code 1 without loading anything. *)
Theorem missing_markup_fails_after_launch (env : environment) (args : arguments) :
  argv2 env = Some args -> hasIncludes (htmlContent args) = false ->
  succeeds env AtLaunch = true -> succeeds env AtNewPage = true ->
  succeeds env AtInitialViewport = true ->
  exists w mobile,
    run (Part000.generateExactPdf env)
    = (Exit 1,
       {| trace := [Launch; NewPage; SetViewport w 800 2 mobile;
                    ConsoleError (ErrorGeneratingPdf TypeError); ProcessExit 1];
          browser := true |}).
Proof.
  intros Hargs Hhtml H1 H2 H3. unfold_script. rewrite Hargs; cbn.
  rewrite H1; cbn. rewrite H2; cbn. rewrite H3; cbn.
  rewrite (normalise_without_includes _ _ Hhtml); cbn.
  do 2 eexists; reflexivity.
Qed.

Lemma missing_markup_fails_after_launch_witness :
  exists w mobile,
    run (Part000.generateExactPdf noMarkupEnvironment)
    = (Exit 1,
       {| trace := [Launch; NewPage; SetViewport w 800 2 mobile;
                    ConsoleError (ErrorGeneratingPdf TypeError); ProcessExit 1];
          browser := true |}).
Proof.
  apply (missing_markup_fails_after_launch noMarkupEnvironment
           {| htmlContent := VUndefined; outputPath := VStr "out.pdf";
              deviceWidth := VUndefined; viewType := VUndefined |});
    reflexivity.
Defined.

(** X22.  An array as [htmlContent] is not refused.  One without the item
    ['<html'] is written into the document shell as its items joined with
    commas, and what is loaded is that text with the viewport tag and the
    title added as for a string; when every call succeeds the script exits
    with code 0. *)
Theorem array_markup_is_joined (env : environment) (args : arguments)
    (items : list value) :
  argv2 env = Some args -> htmlContent args = VArr items ->
  arrayIncludes items "<html" = false ->
  (forall at_, succeeds env at_ = true) ->
  outcome (run (Part000.generateExactPdf env)) = Exit 0
  /\ In (SetContent
           (VStr (addTitle
                    (pdfTitle (choose (or (viewType args) (VStr "desktop"))
                                      (or (deviceWidth args) (VNum 610))))
                    (addMetaViewport (addHead
                       ("<!DOCTYPE html><html><head></head><body>"
                        ++ toString (VArr items) ++ "</body></html>"))))))
        (events (run (Part000.generateExactPdf env))).
Proof.
  intros Hargs Hitems Hnone Hok. unfold_script. rewrite Hargs; cbn.
  rewrite Hitems, (normalise_array_fragment _ _ Hnone). rewrite !Hok; cbn.
  split; [reflexivity|]. do 3 right. left. reflexivity.
Qed.

Lemma array_markup_is_joined_witness :
  outcome (run (Part000.generateExactPdf arrayMarkupEnvironment)) = Exit 0
  /\ In (SetContent
           (VStr ("<!DOCTYPE html><html><head><title>Custom View</title>"
                  ++ metaViewportTag
                  ++ "</head><body><p>Hello</p>,<p>World</p></body></html>")))
        (events (run (Part000.generateExactPdf arrayMarkupEnvironment))).
Proof.
  refine (array_markup_is_joined arrayMarkupEnvironment _ _ eq_refl eq_refl eq_refl _).
  intros at_. reflexivity.
Defined.

(** X11.  The page of the PDF is the final viewport: whenever
    [generateExactPdf] calls [page.pdf], it has set the viewport to the
    measured content height, and the page asked for is that viewport's
    width and height divided by 96, in inches, with backgrounds printed,
    one page, and CSS page sizes preferred. *)
Theorem pdf_page_is_the_final_viewport (env : environment) (o : pdfOptions) :
  pdfCall (events (run (Part000.generateExactPdf env))) = Some o ->
  exists w mobile,
    In (SetViewport w (measureContentHeight (rendered env)) 2 mobile)
       (events (run (Part000.generateExactPdf env)))
    /\ width o = Some (Inches (option_map pxToInches w))
    /\ height o
       = Some (Inches (Some (pxToInches (measureContentHeight (rendered env)))))
    /\ printBackground o = true
    /\ pageRanges o = Some "1"
    /\ preferCSSPageSize o = true.
Proof.
  unfold_script.
  destruct (argv2 env) as [args|]; cbn; [|discriminate].
  branch_on_call env; [|discriminate].
  branch_on_call env; [|discriminate].
  branch_on_call env; [|discriminate].
  branch_on_markup; [|discriminate].
  repeat (branch_on_call env; try discriminate);
    intros Ho; injection Ho as <-; cbn;
    do 2 eexists; (split; [|repeat split; reflexivity]);
    first [ do 9 right; left; reflexivity | do 10 right; left; reflexivity ].
Qed.

Lemma pdf_page_is_the_final_viewport_witness :
  exists o,
    pdfCall (events (run (Part000.generateExactPdf
                            (Samples.helloEnvironment VUndefined VUndefined)))) = Some o
    /\ printBackground o = true.
Proof.
  eexists. split; [vm_compute; reflexivity|].
  refine (let H := pdf_page_is_the_final_viewport
                     (Samples.helloEnvironment VUndefined VUndefined) _ eq_refl in _).
  destruct H as (w & mobile & _ & _ & _ & Hb & _). exact Hb.
Defined.

(** X12.  How [generatePdf] of testpdf.js ends: always in [process.exit],
    never by returning or rejecting, since the argument is parsed inside
    the [try] block; the code is 0 exactly when the argument parses and all
    eight browser calls succeed, and 1 otherwise. *)
Theorem generatePdf_exit_status (env : environment) :
  outcome (run (TestPdf.generatePdf env))
  = if isSome (argv2 env) && everyCall env testPdfCalls then Exit 0 else Exit 1.
Proof.
  unfold_script. unfold everyCall, testPdfCalls. cbn [forallb].
  destruct (argv2 env) as [args|]; cbn; [|reflexivity].
  repeat (branch_on_call env; try reflexivity).
Qed.

(** X13.  [generatePdf] of testpdf.js never calls [browser.close()]: its
    [finally] block is not reached, because the [try] and the [catch] block
    both end in [process.exit].  The browser is left running whenever the
    launch succeeded. *)
Theorem generatePdf_never_closes (env : environment) :
  position isClose (events (run (TestPdf.generatePdf env))) = None
  /\ (argv2 env <> None -> succeeds env AtLaunch = true ->
      browser (snd (run (TestPdf.generatePdf env))) = true).
Proof.
  split.
  - unfold_script.
    destruct (argv2 env) as [args|]; cbn; [|reflexivity].
    repeat (branch_on_call env; try reflexivity).
  - intros Hargs Hlaunch. unfold_script.
    destruct (argv2 env) as [args|]; cbn; [|now elim Hargs].
    rewrite Hlaunch; cbn.
    repeat (branch_on_call env; try reflexivity).
Qed.

Lemma generatePdf_never_closes_witness :
  browser (snd (run (TestPdf.generatePdf
                       (Samples.helloEnvironment VUndefined VUndefined)))) = true.
Proof.
  apply (proj2 (generatePdf_never_closes
                  (Samples.helloEnvironment VUndefined VUndefined))).
  - discriminate.
  - reflexivity.
Defined.

Lemma Qmaxb_left (a b : Q) : (a <= Qmaxb a b)%Q.
Proof.
  unfold Qmaxb. destruct (Qle_bool a b) eqn:E;
    [now apply Qle_bool_iff | apply Qle_refl].
Qed.

Lemma Qmaxb_right (a b : Q) : (b <= Qmaxb a b)%Q.
Proof.
  unfold Qmaxb. destruct (Qle_bool a b) eqn:E; [apply Qle_refl|].
  apply Qlt_le_weak. apply Qnot_le_lt. intros H.
  apply Qle_bool_iff in H. congruence.
Qed.

Lemma le_ceiling_of_le (z : Z) (q : Q) : (inject_Z z <= q)%Q -> z <= Qceiling q.
Proof.
  intros H. rewrite Zle_Qle. eapply Qle_trans; [exact H|apply Qle_ceiling].
Qed.

(** X14.  The page of testpdf.js.  Whenever [page.pdf] is called, the page
    is 375 pixels wide and as high as the measured height.  That height is
    at least each of the five layout metrics read, and at least the bottom
    edge of the body's last element (of the body itself when it has no
    element) shifted by the scroll offset. *)
Theorem testpdf_page_covers_the_layout (env : environment) :
  (forall o, pdfCall (events (run (TestPdf.generatePdf env))) = Some o ->
     width o = Some (Pixels (Some 375))
     /\ height o = Some (Pixels (Some (TestPdf.measurePdfHeight env))))
  /\ body_scrollHeight (metrics env) <= TestPdf.measurePdfHeight env
  /\ body_offsetHeight (metrics env) <= TestPdf.measurePdfHeight env
  /\ html_clientHeight (metrics env) <= TestPdf.measurePdfHeight env
  /\ html_scrollHeight (metrics env) <= TestPdf.measurePdfHeight env
  /\ html_offsetHeight (metrics env) <= TestPdf.measurePdfHeight env
  /\ (bottom (boundingClientRect
                (match lastElementChild (rendered env) with
                 | Some el => el
                 | None => body (rendered env)
                 end))
      + scrollY (metrics env)
      <= inject_Z (TestPdf.measurePdfHeight env))%Q.
Proof.
  split.
  - intros o. unfold_script.
    destruct (argv2 env) as [args|]; cbn; [|discriminate].
    repeat (branch_on_call env; try discriminate);
      intros Ho; injection Ho as <-; split; reflexivity.
  - unfold TestPdf.measurePdfHeight.
    repeat split;
      try (apply le_ceiling_of_le);
      try (eapply Qle_trans; [|apply Qle_ceiling]);
      repeat first
        [ apply Qmaxb_left
        | eapply Qle_trans; [|apply Qmaxb_right] ];
      apply Qle_refl.
Qed.

Lemma testpdf_page_covers_the_layout_witness :
  exists o,
    pdfCall (events (run (TestPdf.generatePdf
                            (Samples.helloEnvironment VUndefined VUndefined)))) = Some o
    /\ width o = Some (Pixels (Some 375)).
Proof.
  eexists. split; [vm_compute; reflexivity|].
  refine (proj1 (proj1 (testpdf_page_covers_the_layout
                          (Samples.helloEnvironment VUndefined VUndefined)) _ eq_refl)).
Defined.


(* ----------------------------------------------------------------- *)
(** ** The scripts of part_001 that read a file or take the width as given *)

(** Unfold the operations of these scripts, [getChromeExecutablePath]
    excepted. *)
Ltac unfold_host :=
  unfold hostRun, Part001File.generateExactPdf, Part001File.launchWith,
    Part001File.renderSteps, Part001Pdf.generatePdf, Part001Pdf.hawait,
    hTryFinally, hTryCatch, hbind, hret, hthrow, hemit, hexit, lift, hostInitial,
    tryFinally, tryCatch, bind, launch, await, jsonParseArgv, closeIfLaunched,
    consoleLog, consoleError, emit, processExit, getBrowser, setBrowser, ret,
    throw.

(** The three ways [getChromeExecutablePath] can end. *)
Lemma getChromeExecutablePath_cases (os : host) (s : hostState) :
  (exists p,
     Part001File.getChromeExecutablePath os s = (Returned p, s)
     /\ existsSync os (VStr p) = true
     /\ (platform os = "win32" \/ platform os = "darwin"))
  \/ Part001File.getChromeExecutablePath os s
     = (Exited 1,
        {| log := (log s ++ [HostConsoleError ChromeNotFound; Core (ProcessExit 1)])%list;
           launched := launched s |})
  \/ Part001File.getChromeExecutablePath os s = (Thrown (ScriptError TypeError), s).
Proof.
  unfold Part001File.getChromeExecutablePath, Part001File.chromeNotFound,
    hbind, hemit, hexit, hret, hthrow.
  destruct (String.eqb_spec (platform os) "win32") as [Hwin|Hwin].
  - destruct (or (programFilesX86 os) (programFiles os));
      try (right; right; reflexivity).
    match goal with
    | |- context [existsSync os ?x] => destruct (existsSync os x) eqn:E
    end.
    + left. eexists. repeat split; [exact E | now left].
    + right; left. cbn. now rewrite <- app_assoc.
  - destruct (String.eqb_spec (platform os) "darwin") as [Hmac|Hmac].
    + match goal with
      | |- context [existsSync os ?x] => destruct (existsSync os x) eqn:E
      end.
      * left. eexists. repeat split; [exact E | now right].
      * right; left. cbn. now rewrite <- app_assoc.
    + right; left. cbn. now rewrite <- app_assoc.
Qed.

(** X16.  [getChromeExecutablePath] returns only the path of a file that
    exists, only on Windows or macOS, and writes nothing when it does.  On
    any other platform it writes that Chrome was not found and exits with
    code 1; on Windows without a program files folder in the environment
    it throws a [TypeError]. *)
Theorem chrome_path_is_returned_only_if_it_exists (os : host) (s : hostState) :
  (forall p s',
     Part001File.getChromeExecutablePath os s = (Returned p, s') ->
     existsSync os (VStr p) = true
     /\ (platform os = "win32" \/ platform os = "darwin")
     /\ s' = s)
  /\ (platform os <> "win32" -> platform os <> "darwin" ->
      Part001File.getChromeExecutablePath os s
      = (Exited 1,
         {| log := (log s ++ [HostConsoleError ChromeNotFound; Core (ProcessExit 1)])%list;
            launched := launched s |}))
  /\ (platform os = "win32" ->
      truthy (programFilesX86 os) = false -> truthy (programFiles os) = false ->
      isString (programFiles os) = false ->
      Part001File.getChromeExecutablePath os s = (Thrown (ScriptError TypeError), s)).
Proof.
  unfold Part001File.getChromeExecutablePath, Part001File.chromeNotFound,
    hbind, hemit, hexit, hret, hthrow.
  split; [|split].
  - intros p s'.
    destruct (String.eqb_spec (platform os) "win32") as [Hwin|Hwin].
    + destruct (or (programFilesX86 os) (programFiles os)); try discriminate.
      destruct (existsSync os (VStr (pathJoin os _))) eqn:E; cbn; [|discriminate].
      intros H. injection H as <- <-. repeat split; [assumption | now left].
    + destruct (String.eqb_spec (platform os) "darwin") as [Hmac|Hmac];
        [|cbn; discriminate].
      destruct (existsSync os (VStr _)) eqn:E; cbn; [|discriminate].
      intros H. injection H as <- <-. repeat split; [assumption | now right].
  - intros Hwin Hmac.
    destruct (String.eqb_spec (platform os) "win32"); [contradiction|].
    destruct (String.eqb_spec (platform os) "darwin"); [contradiction|].
    cbn. now rewrite <- app_assoc.
  - intros Hwin Hx86 Hpf Hstr. rewrite Hwin. cbn [String.eqb Ascii.eqb Bool.eqb].
    unfold or. rewrite Hx86.
    destruct (programFiles os); try reflexivity; discriminate.
Qed.

Lemma chrome_path_is_returned_only_if_it_exists_witness :
  Part001File.getChromeExecutablePath linuxHost hostInitial
  = (Exited 1,
     {| log := [HostConsoleError ChromeNotFound; Core (ProcessExit 1)];
        launched := false |}).
Proof.
  apply (proj1 (proj2 (chrome_path_is_returned_only_if_it_exists linuxHost hostInitial)));
    discriminate.
Defined.

(** X17.  Without an input file nothing is started: when [htmlPath] is
    missing (or otherwise falsy) or names no existing file, the script
    writes one line with [console.error] and exits with code 1 before it
    reads a file, looks for Chrome or launches a browser. *)
Theorem missing_input_file_exits_at_once
    (env : environment) (os : host) (args : Part001File.fileArguments) :
  truthy (Part001File.htmlPath args) = false
  \/ existsSync os (Part001File.htmlPath args) = false ->
  hostRun (Part001File.generateExactPdf env os (Some args))
  = (Exited 1,
     {| log := [HostConsoleError InputFileMissing; Core (ProcessExit 1)];
        launched := false |}).
Proof.
  intros H. unfold_host.
  assert (Hguard : negb (truthy (Part001File.htmlPath args))
                   || negb (existsSync os (Part001File.htmlPath args)) = true).
  { destruct H as [-> | ->]; [reflexivity | apply orb_true_r]. }
  rewrite Hguard. reflexivity.
Qed.

Lemma missing_input_file_exits_at_once_witness :
  hostRun (Part001File.generateExactPdf
             (Samples.helloEnvironment VUndefined VUndefined)
             emptyDiskHost (Some pageArguments))
  = (Exited 1,
     {| log := [HostConsoleError InputFileMissing; Core (ProcessExit 1)];
        launched := false |}).
Proof.
  apply (missing_input_file_exits_at_once
           (Samples.helloEnvironment VUndefined VUndefined)
           emptyDiskHost pageArguments).
  right. reflexivity.
Defined.

(** X18.  What a successful run of the file script needs.  It exits with
    code 0 only on Windows or macOS, with an [htmlPath] that names an
    existing, readable file, and with every browser call other than the
    image wait succeeding; on any other platform it cannot succeed. *)
Theorem file_script_success_needs
    (env : environment) (os : host) (argv : option Part001File.fileArguments) :
  fst (hostRun (Part001File.generateExactPdf env os argv)) = Exited 0 ->
  (platform os = "win32" \/ platform os = "darwin")
  /\ everyCall env part000Calls = true
  /\ exists args text,
       argv = Some args
       /\ truthy (Part001File.htmlPath args) = true
       /\ existsSync os (Part001File.htmlPath args) = true
       /\ readFileSync os (Part001File.htmlPath args) = Some text.
Proof.
  unfold_host. unfold everyCall, part000Calls. cbn [forallb].
  destruct argv as [args|]; [|discriminate].
  destruct (truthy (Part001File.htmlPath args)) eqn:Hpath; cbn; [|discriminate].
  destruct (existsSync os (Part001File.htmlPath args)) eqn:Hexists; cbn;
    [|discriminate].
  destruct (readFileSync os (Part001File.htmlPath args)) as [text|] eqn:Hread;
    [|discriminate].
  destruct (getChromeExecutablePath_cases os {| log := []; launched := false |})
    as [(p & -> & _ & Hplatform) | [-> | ->]]; cbn; [|discriminate|discriminate].
  repeat (branch_on_call env; try discriminate);
    intros _; (split; [assumption|]); (split; [reflexivity|]);
    exists args, text; repeat split; assumption.
Qed.

Lemma file_script_success_needs_witness :
  platform macHost = "win32" \/ platform macHost = "darwin".
Proof.
  refine (proj1 (file_script_success_needs
                   (Samples.helloEnvironment VUndefined VUndefined)
                   macHost (Some pageArguments) _)).
  vm_compute. reflexivity.
Defined.

(** X19.  Once the file is read and Chrome found, the file script does
    what the inline script of part_000 does on the text of the file: it
    ends the same way and goes through the same events in the same order,
    the launch naming the executable. *)
Theorem file_script_renders_as_the_inline_script
    (env : environment) (os : host) (args : Part001File.fileArguments)
    (text executablePath : string) :
  truthy (Part001File.htmlPath args) = true ->
  existsSync os (Part001File.htmlPath args) = true ->
  readFileSync os (Part001File.htmlPath args) = Some text ->
  Part001File.getChromeExecutablePath os hostInitial
    = (Returned executablePath, hostInitial) ->
  hostRun (Part001File.generateExactPdf env os (Some args))
  = (asHostCompletion
       (outcome (run (Part000.generateExactPdf
                        (withArguments env (inlineArguments text args))))),
     {| log := map (asHostEvent executablePath)
                 (events (run (Part000.generateExactPdf
                                 (withArguments env (inlineArguments text args)))));
        launched := browser (snd (run (Part000.generateExactPdf
                                         (withArguments env (inlineArguments text args))))) |}).
Proof.
  intros Hpath Hexists Hread Hchrome.
  unfold_host. unfold_script. rewrite Hpath, Hexists, Hread. cbn.
  unfold hostInitial in Hchrome. rewrite Hchrome. cbn.
  rewrite ?normalise_string. cbn.
  repeat (branch_on_call env; try reflexivity).
Qed.

Lemma file_script_renders_as_the_inline_script_witness :
  fst (hostRun (Part001File.generateExactPdf
                  (Samples.helloEnvironment VUndefined VUndefined)
                  macHost (Some pageArguments)))
  = Exited 0.
Proof.
  rewrite (file_script_renders_as_the_inline_script
             (Samples.helloEnvironment VUndefined VUndefined) macHost pageArguments
             "<p>Hello</p>"
             "/Applications/Google Chrome.app/Contents/MacOS/Google Chrome");
    reflexivity.
Defined.

(** X20.  How [generatePdf] of part_001 ends: always in [process.exit],
    with code 0 exactly when the argument parses and all eight browser
    calls succeed and with code 1 otherwise, a malformed argument included;
    [browser.close()] is never called. *)
Theorem supplied_width_script_exit_status (env : environment) :
  fst (hostRun (Part001Pdf.generatePdf env))
  = (if isSome (argv2 env) && everyCall env testPdfCalls
     then Exited 0 else Exited 1)
  /\ ~ In (Core Close) (log (snd (hostRun (Part001Pdf.generatePdf env)))).
Proof.
  unfold_host. unfold everyCall, testPdfCalls. cbn [forallb].
  destruct (argv2 env) as [args|]; cbn;
    [|split; [reflexivity|intuition discriminate]].
  repeat (branch_on_call env; try (split; [reflexivity|cbn; intuition discriminate])).
Qed.

(** X21.  The page of [generatePdf] of part_001.  Whenever [page.pdf] is
    called, the width of the page in pixels is the viewport width, both
    being [parseInt] of [deviceWidth] without any default, and the height
    is the largest of the four metrics read: it is one of them and at
    least each of them. *)
Theorem supplied_width_page_is_the_viewport (env : environment) :
  (forall o,
     hostPdfCall (log (snd (hostRun (Part001Pdf.generatePdf env)))) = Some o ->
     exists args,
       argv2 env = Some args
       /\ In (Core (SetViewport (parseIntNoRadix (deviceWidth args)) 1080 1 false))
             (log (snd (hostRun (Part001Pdf.generatePdf env))))
       /\ width o = Some (Pixels (parseIntNoRadix (deviceWidth args)))
       /\ height o = Some (Pixels (Some (Part001Pdf.measureBodyHeight env))))
  /\ In (Part001Pdf.measureBodyHeight env)
        [body_scrollHeight (metrics env); body_offsetHeight (metrics env);
         html_scrollHeight (metrics env); html_offsetHeight (metrics env)]
  /\ body_scrollHeight (metrics env) <= Part001Pdf.measureBodyHeight env
  /\ body_offsetHeight (metrics env) <= Part001Pdf.measureBodyHeight env
  /\ html_scrollHeight (metrics env) <= Part001Pdf.measureBodyHeight env
  /\ html_offsetHeight (metrics env) <= Part001Pdf.measureBodyHeight env.
Proof.
  split.
  - intros o. unfold_host.
    destruct (argv2 env) as [args|]; cbn; [|discriminate].
    repeat (branch_on_call env; try discriminate);
      intros Ho; injection Ho as <-; exists args; cbn;
      (split; [reflexivity|]); (split; [tauto|]);
      split; reflexivity.
  - unfold Part001Pdf.measureBodyHeight. cbn [In]. lia.
Qed.

Lemma supplied_width_page_is_the_viewport_witness :
  exists o,
    hostPdfCall (log (snd (hostRun (Part001Pdf.generatePdf
                                      (Samples.helloEnvironment (VNum 357) VUndefined)))))
    = Some o
    /\ width o = Some (Pixels (Some 357)).
Proof.
  assert (H : exists o,
             hostPdfCall
               (log (snd (hostRun (Part001Pdf.generatePdf
                                     (Samples.helloEnvironment (VNum 357) VUndefined)))))
             = Some o)
    by (eexists; vm_compute; reflexivity).
  destruct H as [o Ho]. exists o. split; [exact Ho|].
  destruct (proj1 (supplied_width_page_is_the_viewport
                     (Samples.helloEnvironment (VNum 357) VUndefined)) o Ho)
    as (args & Hargs & _ & Hw & _).
  cbn in Hargs. injection Hargs as <-. exact Hw.
Defined.

End Coverage.
